(** * temporal-mcp: the two tool handlers of [main.go]

    A shallow embedding of the [list_workflows] and [describe_workflow]
    handlers registered in [main], of [workflowStatusToString], and of the
    library values they touch (protobuf messages with their nil-safe
    getters, the MCP result constructors, [strings.ToLower],
    [strings.Builder]).

    Go pointers that may be nil are [option]; a Go [string] is a byte
    sequence, here [string]; the calls on the Temporal client and on the
    logger are recorded, in program order, in a trace of events. *)

From Stdlib Require Import ZArith String Ascii List Floats DecimalString Lia.
From stdpp Require Import base gmap strings list.

Set Warnings "-register-all".
Local Open Scope string_scope.

(** ** Go built-ins *)

(** The line feed written as [\n] in the Go literals. *)
Definition LF : string := String "010"%char EmptyString.

(** Go's [error] interface, observed only through [Error()]. *)
Record error := errorString { Error : string }.

(** A decoded JSON value, the dynamic type behind Go's [interface{}] in
    [req.Params.Arguments] (encoding/json decodes numbers to float64). *)
Inductive JSON :=
| JNull
| JBool (b : bool)
| JNumber (f : float)
| JString (s : string)
| JArray (l : list JSON)
| JObject (m : gmap string JSON).

(** [v, ok := x.(string)] on the result of a map lookup: a missing key and
    a JSON null are both the nil interface, on which the assertion fails and
    yields the zero value. *)
Definition assert_string (x : option JSON) : string * bool :=
  match x with
  | Some (JString s) => (s, true)
  | _ => (EmptyString, false)
  end.

(** ** package strings *)

Module strings.

Definition isUpper (c : ascii) : bool :=
  (65 <=? nat_of_ascii c)%nat && (nat_of_ascii c <=? 90)%nat.

(** [c += 'a' - 'A'] on a byte in ['A'..'Z']. *)
Definition lowerByte (c : ascii) : ascii :=
  if isUpper c then ascii_of_nat (nat_of_ascii c + 32) else c.

(** [c < utf8.RuneSelf] for every byte. *)
Fixpoint isASCII (s : string) : bool :=
  match s with
  | EmptyString => true
  | String c s' => (nat_of_ascii c <? 128)%nat && isASCII s'
  end.

Fixpoint hasUpper (s : string) : bool :=
  match s with
  | EmptyString => false
  | String c s' => isUpper c || hasUpper s'
  end.

Fixpoint mapBytes (f : ascii -> ascii) (s : string) : string :=
  match s with
  | EmptyString => EmptyString
  | String c s' => String (f c) (mapBytes f s')
  end.

(** [strings.ToLower]: an ASCII-only string is lowered byte by byte (and
    returned as it is when it has no upper-case letter); any other string
    goes through [Map(unicode.ToLower, s)], which depends on the Unicode
    case tables and is the parameter [mapUnicodeToLower]. *)
Definition ToLower (mapUnicodeToLower : string -> string) (s : string) : string :=
  if isASCII s then
    if hasUpper s then mapBytes lowerByte s else s
  else mapUnicodeToLower s.

(** [strings.Builder]: the bytes written so far. *)
Definition Builder := string.
Definition WriteString (b : Builder) (s : string) : Builder := b +:+ s.

End strings.

(** ** package fmt *)

Module fmt.
(** The verb [%d] on a non-negative [int]. *)
Definition d (n : nat) : string := NilZero.string_of_uint (Nat.to_uint n).
(** The verb [%v] on an [error]. *)
Definition v (err : error) : string := Error err.
End fmt.

(** ** Protobuf messages (go.temporal.io/api), with their nil-safe getters *)

Module timestamppb.
Record Timestamp := { Seconds : Z; Nanos : Z }.
Definition GetSeconds (x : option Timestamp) : Z :=
  match x with Some t => Seconds t | None => 0%Z end.
Definition GetNanos (x : option Timestamp) : Z :=
  match x with Some t => Nanos t | None => 0%Z end.
End timestamppb.

Module time.
(** The instant [time.Unix(sec, nsec)]. *)
Record Time := Unix { sec : Z; nsec : Z }.
End time.

(** [x.AsTime()] is [time.Unix(x.GetSeconds(), x.GetNanos()).UTC()]; on a nil
    timestamp both getters return zero, the Unix epoch. *)
Definition AsTime (x : option timestamppb.Timestamp) : time.Time :=
  time.Unix (timestamppb.GetSeconds x) (timestamppb.GetNanos x).

Module enumspb.
(** An [int32] enum. *)
Definition WorkflowExecutionStatus := Z.
Definition WORKFLOW_EXECUTION_STATUS_UNSPECIFIED : WorkflowExecutionStatus := 0%Z.
Definition WORKFLOW_EXECUTION_STATUS_RUNNING : WorkflowExecutionStatus := 1%Z.
Definition WORKFLOW_EXECUTION_STATUS_COMPLETED : WorkflowExecutionStatus := 2%Z.
Definition WORKFLOW_EXECUTION_STATUS_FAILED : WorkflowExecutionStatus := 3%Z.
Definition WORKFLOW_EXECUTION_STATUS_CANCELED : WorkflowExecutionStatus := 4%Z.
Definition WORKFLOW_EXECUTION_STATUS_TERMINATED : WorkflowExecutionStatus := 5%Z.
Definition WORKFLOW_EXECUTION_STATUS_CONTINUED_AS_NEW : WorkflowExecutionStatus := 6%Z.
Definition WORKFLOW_EXECUTION_STATUS_TIMED_OUT : WorkflowExecutionStatus := 7%Z.
End enumspb.

Module commonpb.
Record WorkflowExecution := { WorkflowId : string; RunId : string }.
Record WorkflowType := { Name : string }.

Definition GetWorkflowId (x : option WorkflowExecution) : string :=
  match x with Some e => WorkflowId e | None => EmptyString end.
Definition GetRunId (x : option WorkflowExecution) : string :=
  match x with Some e => RunId e | None => EmptyString end.
Definition GetName (x : option WorkflowType) : string :=
  match x with Some t => Name t | None => EmptyString end.
End commonpb.

Module workflowpb.
(** The fields of [WorkflowExecutionInfo] that the handlers read. *)
Record WorkflowExecutionInfo := {
  Execution : option commonpb.WorkflowExecution;
  Type_ : option commonpb.WorkflowType;
  StartTime : option timestamppb.Timestamp;
  CloseTime : option timestamppb.Timestamp;
  Status : enumspb.WorkflowExecutionStatus
}.

Definition GetExecution (x : option WorkflowExecutionInfo) :=
  match x with Some i => Execution i | None => None end.
Definition GetType (x : option WorkflowExecutionInfo) :=
  match x with Some i => Type_ i | None => None end.
Definition GetStartTime (x : option WorkflowExecutionInfo) :=
  match x with Some i => StartTime i | None => None end.
Definition GetCloseTime (x : option WorkflowExecutionInfo) :=
  match x with Some i => CloseTime i | None => None end.
Definition GetStatus (x : option WorkflowExecutionInfo) : enumspb.WorkflowExecutionStatus :=
  match x with
  | Some i => Status i
  | None => enumspb.WORKFLOW_EXECUTION_STATUS_UNSPECIFIED
  end.
End workflowpb.

Module filterpb.
Record StartTimeFilter := {
  EarliestTime : option timestamppb.Timestamp;
  LatestTime : option timestamppb.Timestamp
}.
Record WorkflowExecutionFilter := { WorkflowId : string; RunId : string }.
Record WorkflowTypeFilter := { Name : string }.
Record StatusFilter := { Status : enumspb.WorkflowExecutionStatus }.
End filterpb.

Module workflowservice.
(** The [Filters] oneof of the open-executions request. *)
Inductive ListOpenFilters :=
| ListOpenWorkflowExecutionsRequest_ExecutionFilter (f : option filterpb.WorkflowExecutionFilter)
| ListOpenWorkflowExecutionsRequest_TypeFilter (f : option filterpb.WorkflowTypeFilter).

Record ListOpenWorkflowExecutionsRequest := {
  open_Namespace : string;
  open_MaximumPageSize : Z;
  open_NextPageToken : string;
  open_StartTimeFilter : option filterpb.StartTimeFilter;
  open_Filters : option ListOpenFilters
}.

(** The [Filters] oneof of the closed-executions request. *)
Inductive ListClosedFilters :=
| ListClosedWorkflowExecutionsRequest_ExecutionFilter (f : option filterpb.WorkflowExecutionFilter)
| ListClosedWorkflowExecutionsRequest_TypeFilter (f : option filterpb.WorkflowTypeFilter)
| ListClosedWorkflowExecutionsRequest_StatusFilter (f : option filterpb.StatusFilter).

Record ListClosedWorkflowExecutionsRequest := {
  closed_Namespace : string;
  closed_MaximumPageSize : Z;
  closed_NextPageToken : string;
  closed_StartTimeFilter : option filterpb.StartTimeFilter;
  closed_Filters : option ListClosedFilters
}.

(** [GetStatusFilter]: the status filter carried by the oneof, nil when the
    oneof is unset, holds another case, or wraps a nil filter. *)
Definition GetStatusFilter (r : ListClosedWorkflowExecutionsRequest)
  : option filterpb.StatusFilter :=
  match closed_Filters r with
  | Some (ListClosedWorkflowExecutionsRequest_StatusFilter f) => f
  | _ => None
  end.

Record ListOpenWorkflowExecutionsResponse := {
  open_Executions : list (option workflowpb.WorkflowExecutionInfo);
  open_ResponsePageToken : string
}.

Record ListClosedWorkflowExecutionsResponse := {
  closed_Executions : list (option workflowpb.WorkflowExecutionInfo);
  closed_ResponsePageToken : string
}.

Record DescribeWorkflowExecutionResponse := {
  WorkflowExecutionInfo : option workflowpb.WorkflowExecutionInfo
}.

Definition open_GetExecutions (x : option ListOpenWorkflowExecutionsResponse) :=
  match x with Some r => open_Executions r | None => [] end.
Definition closed_GetExecutions (x : option ListClosedWorkflowExecutionsResponse) :=
  match x with Some r => closed_Executions r | None => [] end.
Definition GetWorkflowExecutionInfo (x : option DescribeWorkflowExecutionResponse) :=
  match x with Some r => WorkflowExecutionInfo r | None => None end.
End workflowservice.

(** ** package mcp (mark3labs/mcp-go) *)

Module mcp.
Record TextContent := { Type_ : string; Text : string }.

Record CallToolResult := {
  Content : list TextContent;
  IsError : bool
}.

Definition NewToolResultText (text : string) : CallToolResult :=
  {| Content := [ {| Type_ := "text"; Text := text |} ]; IsError := false |}.

Definition NewToolResultError (text : string) : CallToolResult :=
  {| Content := [ {| Type_ := "text"; Text := text |} ]; IsError := true |}.

Record CallToolParams := {
  Name : string;
  Arguments : gmap string JSON
}.

Record CallToolRequest := { Params : CallToolParams }.
End mcp.

(** ** The Temporal client and the effects of a handler *)

Module client.
(** The three methods of [client.Client] that the handlers call. A Go
    method returns the pair [(resp, err)]; the context argument only
    matters to the backend, where a cancelled call comes back as a
    non-nil [err]. *)
Record Client := {
  ListOpenWorkflow :
    workflowservice.ListOpenWorkflowExecutionsRequest ->
    option workflowservice.ListOpenWorkflowExecutionsResponse * option error;
  ListClosedWorkflow :
    workflowservice.ListClosedWorkflowExecutionsRequest ->
    option workflowservice.ListClosedWorkflowExecutionsResponse * option error;
  DescribeWorkflowExecution :
    string -> string ->
    option workflowservice.DescribeWorkflowExecutionResponse * option error
}.
End client.

(** What a handler does besides returning: calls on the client and lines
    handed to the logger. *)
Inductive Event :=
| ListOpenWorkflowCall (req : workflowservice.ListOpenWorkflowExecutionsRequest)
| ListClosedWorkflowCall (req : workflowservice.ListClosedWorkflowExecutionsRequest)
| DescribeWorkflowExecutionCall (workflowID runID : string)
| LogPrintf (line : string).

(** A computation: the events it performed, in order, and its value. *)
Definition Eff (A : Type) : Type := list Event * A.

Definition ret {A} (a : A) : Eff A := ([], a).

Definition bind {A B} (m : Eff A) (k : A -> Eff B) : Eff B :=
  let '(t1, a) := m in
  let '(t2, b) := k a in
  ((t1 ++ t2)%list, b).

Definition emit (e : Event) : Eff unit := ([e], tt).

Notation "'let*' x ':=' m 'in' k" := (bind m (fun x => k))
  (at level 10, x pattern, m at level 100, k at level 200).

Definition trace {A} (m : Eff A) : list Event := fst m.
Definition value {A} (m : Eff A) : A := snd m.

(** What a tool handler returns: a pointer to an [mcp.CallToolResult] and
    an [error]. *)
Definition HandlerResult : Type := option mcp.CallToolResult * option error.

(** ** main.go *)

(** [workflowStatusToString] (main.go, lines 203-223): a switch over the
    enum with a default arm. *)
Definition workflowStatusToString (status : enumspb.WorkflowExecutionStatus) : string :=
  if (status =? enumspb.WORKFLOW_EXECUTION_STATUS_RUNNING)%Z then "Running"
  else if (status =? enumspb.WORKFLOW_EXECUTION_STATUS_COMPLETED)%Z then "Completed"
  else if (status =? enumspb.WORKFLOW_EXECUTION_STATUS_FAILED)%Z then "Failed"
  else if (status =? enumspb.WORKFLOW_EXECUTION_STATUS_CANCELED)%Z then "Canceled"
  else if (status =? enumspb.WORKFLOW_EXECUTION_STATUS_TERMINATED)%Z then "Terminated"
  else if (status =? enumspb.WORKFLOW_EXECUTION_STATUS_CONTINUED_AS_NEW)%Z then "ContinuedAsNew"
  else if (status =? enumspb.WORKFLOW_EXECUTION_STATUS_TIMED_OUT)%Z then "TimedOut"
  else "Unknown".

(** The query intents of the specification's Status Classifier. *)
Inductive StatusIntent := Running | Completed | Failed.

(** The failures of the specification's taxonomy (section 7). *)
Inductive FailureKind := InvalidArgument | InvalidStatus | QueryFailed | NotFound.

(** The run id that line 154 extracts: the zero value unless the argument
    is a string. *)
Definition run_id_of (req : mcp.CallToolRequest) : string :=
  fst (assert_string (mcp.Arguments (mcp.Params req) !! "run_id")).

(** The same request with the run_id argument omitted. *)
Definition without_run_id (req : mcp.CallToolRequest) : mcp.CallToolRequest :=
  {| mcp.Params :=
       {| mcp.Name := mcp.Name (mcp.Params req);
          mcp.Arguments := delete "run_id" (mcp.Arguments (mcp.Params req)) |} |}.

Section Server.

(** Library functions whose result depends on tables or on formatting
    code outside the repository. *)

(** [strings.Map(unicode.ToLower, s)], the branch of [strings.ToLower]
    for a string with a byte outside ASCII. *)
Variable mapUnicodeToLower : string -> string.
(** [t.UTC().Format(time.RFC3339)]. *)
Variable FormatRFC3339 : time.Time -> string.
(** The verb [%q] on a string (only used in a log line). *)
Variable Quote : string -> string.

(** The variables of [main] that the two closures capture. *)
Variable temporalNamespace : string.
Variable c : client.Client.

Definition ToLower : string -> string := strings.ToLower mapUnicodeToLower.

(** The three calls on the client, each recorded in the trace. *)
Definition c_ListOpenWorkflow (r : workflowservice.ListOpenWorkflowExecutionsRequest) :=
  let* _ := emit (ListOpenWorkflowCall r) in ret (client.ListOpenWorkflow c r).
Definition c_ListClosedWorkflow (r : workflowservice.ListClosedWorkflowExecutionsRequest) :=
  let* _ := emit (ListClosedWorkflowCall r) in ret (client.ListClosedWorkflow c r).
Definition c_DescribeWorkflowExecution (wfID runID : string) :=
  let* _ := emit (DescribeWorkflowExecutionCall wfID runID) in
  ret (client.DescribeWorkflowExecution c wfID runID).
Definition log_Printf (line : string) : Eff unit := emit (LogPrintf line).

(** *** The list_workflows handler (main.go, lines 72-144) *)

(** Lines 80-116: the branch on [statusFilter], which either assigns
    [executions] (right) or returns from the handler (left). *)
Definition list_executions (statusVal statusFilter : string)
  : Eff (HandlerResult + list (option workflowpb.WorkflowExecutionInfo)) :=
  if (statusFilter =? "running")%string then
    let* (resp, err) := c_ListOpenWorkflow
      {| workflowservice.open_Namespace := temporalNamespace;
         workflowservice.open_MaximumPageSize := 100%Z;
         workflowservice.open_NextPageToken := EmptyString;
         workflowservice.open_StartTimeFilter := None;
         workflowservice.open_Filters := None |} in
    match err with
    | Some err =>
        let* _ := log_Printf ("Error listing running workflows: " +:+ fmt.v err) in
        ret (inl (Some (mcp.NewToolResultError
                          ("Failed to list running workflows: " +:+ fmt.v err)), None))
    | None => ret (inr (workflowservice.open_GetExecutions resp))
    end
  else if (statusFilter =? "completed")%string || (statusFilter =? "failed")%string then
    let* (resp, err) := c_ListClosedWorkflow
      {| workflowservice.closed_Namespace := temporalNamespace;
         workflowservice.closed_MaximumPageSize := 100%Z;
         workflowservice.closed_NextPageToken := EmptyString;
         workflowservice.closed_StartTimeFilter := None;
         workflowservice.closed_Filters :=
           Some (workflowservice.ListClosedWorkflowExecutionsRequest_StatusFilter None) |} in
    match err with
    | Some err =>
        let* _ := log_Printf ("Error listing " +:+ statusFilter +:+ " workflows: "
                              +:+ fmt.v err) in
        ret (inl (Some (mcp.NewToolResultError
                          ("Failed to list " +:+ statusFilter +:+ " workflows: "
                           +:+ fmt.v err)), None))
    | None => ret (inr (workflowservice.closed_GetExecutions resp))
    end
  else
    ret (inl (Some (mcp.NewToolResultError
                      ("Unsupported status '" +:+ statusVal
                       +:+ "' (use running, completed, or failed)")), None)).

(** Lines 125-141: the body of the loop over [executions], one
    [WriteString] per element. *)
Definition list_loop_body (outputBuilder : strings.Builder)
    (info : option workflowpb.WorkflowExecutionInfo) : strings.Builder :=
  let id := commonpb.GetWorkflowId (workflowpb.GetExecution info) in
  let runID := commonpb.GetRunId (workflowpb.GetExecution info) in
  let wfType := commonpb.GetName (workflowpb.GetType info) in
  let start := FormatRFC3339 (AsTime (workflowpb.GetStartTime info)) in
  let statusStr := workflowStatusToString (workflowpb.GetStatus info) in
  match workflowpb.GetCloseTime info with
  | Some _ =>
      let end_ := FormatRFC3339 (AsTime (workflowpb.GetCloseTime info)) in
      strings.WriteString outputBuilder
        ("- ID: " +:+ id +:+ " | Run: " +:+ runID +:+ " | Type: " +:+ wfType
         +:+ " | Status: " +:+ statusStr +:+ " | Start: " +:+ start
         +:+ " | End: " +:+ end_ +:+ LF)
  | None =>
      strings.WriteString outputBuilder
        ("- ID: " +:+ id +:+ " | Run: " +:+ runID +:+ " | Type: " +:+ wfType
         +:+ " | Status: " +:+ statusStr +:+ " | Start: " +:+ start +:+ LF)
  end.

(** Lines 118-143: the text built from [executions]. *)
Definition render_executions (statusFilter : string)
    (executions : list (option workflowpb.WorkflowExecutionInfo)) : HandlerResult :=
  if (List.length executions =? 0)%nat then
    (Some (mcp.NewToolResultText ("No " +:+ statusFilter +:+ " workflows found.")), None)
  else
    let outputBuilder : strings.Builder := EmptyString in
    let outputBuilder := strings.WriteString outputBuilder
      ("Found " +:+ fmt.d (List.length executions) +:+ " " +:+ statusFilter
       +:+ " workflow(s):" +:+ LF) in
    let outputBuilder := fold_left list_loop_body executions outputBuilder in
    (Some (mcp.NewToolResultText outputBuilder), None).

Definition list_workflows_handler (req : mcp.CallToolRequest) : Eff HandlerResult :=
  let '(statusVal, ok) :=
    assert_string (mcp.Arguments (mcp.Params req) !! "status") in
  if negb ok || (statusVal =? EmptyString)%string then
    ret (Some (mcp.NewToolResultError "Missing or invalid 'status' parameter"), None)
  else
    let statusFilter := ToLower statusVal in
    let* r := list_executions statusVal statusFilter in
    match r with
    | inl returned => ret returned
    | inr executions => ret (render_executions statusFilter executions)
    end.

(** The Status Classifier of the specification (section 4.1), read off
    line 78 and the comparisons of lines 82 and 93; [None] is the
    rejection of line 113. *)
Definition classify (statusVal : string) : option StatusIntent :=
  let statusFilter := ToLower statusVal in
  if (statusFilter =? "running")%string then Some Running
  else if (statusFilter =? "completed")%string then Some Completed
  else if (statusFilter =? "failed")%string then Some Failed
  else None.

(** A case-insensitive match of one of the three keywords: the string
    that line 78 lowers to it. *)
Definition is_status_keyword (statusVal : string) : Prop :=
  ToLower statusVal = "running" \/ ToLower statusVal = "completed"
  \/ ToLower statusVal = "failed".

(** The status label that the handler prints for an intent. *)
Definition status_label (i : StatusIntent) : string :=
  match i with
  | Running => "running"
  | Completed => "completed"
  | Failed => "failed"
  end.

(** The requests of lines 84-87 and 101-107. *)
Definition open_request : workflowservice.ListOpenWorkflowExecutionsRequest :=
  {| workflowservice.open_Namespace := temporalNamespace;
     workflowservice.open_MaximumPageSize := 100%Z;
     workflowservice.open_NextPageToken := EmptyString;
     workflowservice.open_StartTimeFilter := None;
     workflowservice.open_Filters := None |}.

Definition closed_request : workflowservice.ListClosedWorkflowExecutionsRequest :=
  {| workflowservice.closed_Namespace := temporalNamespace;
     workflowservice.closed_MaximumPageSize := 100%Z;
     workflowservice.closed_NextPageToken := EmptyString;
     workflowservice.closed_StartTimeFilter := None;
     workflowservice.closed_Filters :=
       Some (workflowservice.ListClosedWorkflowExecutionsRequest_StatusFilter None) |}.

(** The one query that serves an intent, and what the backend answers. *)
Definition query_of (i : StatusIntent) : Event :=
  match i with
  | Running => ListOpenWorkflowCall open_request
  | _ => ListClosedWorkflowCall closed_request
  end.

Definition answer_of (i : StatusIntent)
  : list (option workflowpb.WorkflowExecutionInfo) * option error :=
  match i with
  | Running =>
      (workflowservice.open_GetExecutions (fst (client.ListOpenWorkflow c open_request)),
       snd (client.ListOpenWorkflow c open_request))
  | _ =>
      (workflowservice.closed_GetExecutions (fst (client.ListClosedWorkflow c closed_request)),
       snd (client.ListClosedWorkflow c closed_request))
  end.

(** RenderList as the specification words it (section 4.4): a header
    with the count and the status label, then one line per summary with
    identifier, run id, type, status, start time, and the end time only
    when the close time is present. *)
Definition summary_body (info : option workflowpb.WorkflowExecutionInfo) : string :=
  "- ID: " +:+ commonpb.GetWorkflowId (workflowpb.GetExecution info)
  +:+ " | Run: " +:+ commonpb.GetRunId (workflowpb.GetExecution info)
  +:+ " | Type: " +:+ commonpb.GetName (workflowpb.GetType info)
  +:+ " | Status: " +:+ workflowStatusToString (workflowpb.GetStatus info)
  +:+ " | Start: " +:+ FormatRFC3339 (AsTime (workflowpb.GetStartTime info))
  +:+ match workflowpb.GetCloseTime info with
      | Some t => " | End: " +:+ FormatRFC3339 (AsTime (Some t))
      | None => EmptyString
      end.

Definition summary_line (info : option workflowpb.WorkflowExecutionInfo) : string :=
  summary_body info +:+ LF.

Definition list_header (statusLabel : string) (n : nat) : string :=
  "Found " +:+ fmt.d n +:+ " " +:+ statusLabel +:+ " workflow(s):".

Definition RenderList (statusLabel : string)
    (summaries : list (option workflowpb.WorkflowExecutionInfo)) : string :=
  match summaries with
  | [] => "No " +:+ statusLabel +:+ " workflows found."
  | _ => list_header statusLabel (List.length summaries) +:+ LF
         +:+ String.concat EmptyString (map summary_line summaries)
  end.

(** *** The describe_workflow handler (main.go, lines 147-194) *)

(** Lines 168-193: the text built from a non-nil [info]. *)
Definition render_detail (info : option workflowpb.WorkflowExecutionInfo) : HandlerResult :=
  let id := commonpb.GetWorkflowId (workflowpb.GetExecution info) in
  let run := commonpb.GetRunId (workflowpb.GetExecution info) in
  let wfType := commonpb.GetName (workflowpb.GetType info) in
  let statusStr := workflowStatusToString (workflowpb.GetStatus info) in
  let startTime :=
    match workflowpb.GetStartTime info with
    | Some _ => FormatRFC3339 (AsTime (workflowpb.GetStartTime info))
    | None => EmptyString
    end in
  let endTime :=
    match workflowpb.GetCloseTime info with
    | Some _ => FormatRFC3339 (AsTime (workflowpb.GetCloseTime info))
    | None => EmptyString
    end in
  let outputBuilder : strings.Builder := EmptyString in
  let outputBuilder := strings.WriteString outputBuilder ("Workflow Execution Details:" +:+ LF) in
  let outputBuilder := strings.WriteString outputBuilder ("Workflow ID: " +:+ id +:+ LF) in
  let outputBuilder := strings.WriteString outputBuilder ("Run ID: " +:+ run +:+ LF) in
  let outputBuilder := strings.WriteString outputBuilder ("Type: " +:+ wfType +:+ LF) in
  let outputBuilder := strings.WriteString outputBuilder ("Status: " +:+ statusStr +:+ LF) in
  let outputBuilder := strings.WriteString outputBuilder ("Start Time: " +:+ startTime +:+ LF) in
  let outputBuilder :=
    if negb (endTime =? EmptyString)%string
    then strings.WriteString outputBuilder ("End Time: " +:+ endTime +:+ LF)
    else outputBuilder in
  (Some (mcp.NewToolResultText outputBuilder), None).

Definition describe_workflow_handler (req : mcp.CallToolRequest) : Eff HandlerResult :=
  let '(wfID, ok) :=
    assert_string (mcp.Arguments (mcp.Params req) !! "workflow_id") in
  if negb ok || (wfID =? EmptyString)%string then
    ret (Some (mcp.NewToolResultError "Missing or invalid 'workflow_id' parameter"), None)
  else
    let '(runID, _) :=
      assert_string (mcp.Arguments (mcp.Params req) !! "run_id") in
    let* (resp, err) := c_DescribeWorkflowExecution wfID runID in
    match err with
    | Some err =>
        let* _ := log_Printf ("Error describing workflow " +:+ Quote wfID +:+ " (run "
                              +:+ Quote runID +:+ "): " +:+ fmt.v err) in
        ret (Some (mcp.NewToolResultError
                     ("Failed to describe workflow: " +:+ fmt.v err)), None)
    | None =>
        let info := workflowservice.GetWorkflowExecutionInfo resp in
        match info with
        | None =>
            ret (Some (mcp.NewToolResultError
                         "No information available for the specified workflow"), None)
        | Some _ => ret (render_detail info)
        end
    end.

(** RenderDetail as the specification words it (section 4.4): a header,
    then Workflow ID, Run ID, Type, Status and Start Time, and an End Time
    line only if a close time exists. *)
Definition RenderDetail (detail : workflowpb.WorkflowExecutionInfo) : string :=
  "Workflow Execution Details:" +:+ LF
  +:+ "Workflow ID: " +:+ commonpb.GetWorkflowId (workflowpb.Execution detail) +:+ LF
  +:+ "Run ID: " +:+ commonpb.GetRunId (workflowpb.Execution detail) +:+ LF
  +:+ "Type: " +:+ commonpb.GetName (workflowpb.Type_ detail) +:+ LF
  +:+ "Status: " +:+ workflowStatusToString (workflowpb.Status detail) +:+ LF
  +:+ "Start Time: "
  +:+ match workflowpb.StartTime detail with
      | Some t => FormatRFC3339 (AsTime (Some t))
      | None => EmptyString
      end +:+ LF
  +:+ match workflowpb.CloseTime detail with
      | Some t => "End Time: " +:+ FormatRFC3339 (AsTime (Some t)) +:+ LF
      | None => EmptyString
      end.

(** When an invocation of list_workflows fails, and how. *)
Inductive list_fails (req : mcp.CallToolRequest) : FailureKind -> Prop :=
| list_fails_argument :
    (forall s, mcp.Arguments (mcp.Params req) !! "status" = Some (JString s) ->
               s = EmptyString) ->
    list_fails req InvalidArgument
| list_fails_status statusVal :
    mcp.Arguments (mcp.Params req) !! "status" = Some (JString statusVal) ->
    statusVal <> EmptyString ->
    classify statusVal = None ->
    list_fails req InvalidStatus
| list_fails_query statusVal i err :
    mcp.Arguments (mcp.Params req) !! "status" = Some (JString statusVal) ->
    classify statusVal = Some i ->
    snd (answer_of i) = Some err ->
    list_fails req QueryFailed.

(** When an invocation of describe_workflow fails, and how. *)
Inductive describe_fails (req : mcp.CallToolRequest) : FailureKind -> Prop :=
| describe_fails_argument :
    (forall s, mcp.Arguments (mcp.Params req) !! "workflow_id" = Some (JString s) ->
               s = EmptyString) ->
    describe_fails req InvalidArgument
| describe_fails_query wfID err :
    mcp.Arguments (mcp.Params req) !! "workflow_id" = Some (JString wfID) ->
    wfID <> EmptyString ->
    snd (client.DescribeWorkflowExecution c wfID (run_id_of req)) = Some err ->
    describe_fails req QueryFailed
| describe_fails_absent wfID :
    mcp.Arguments (mcp.Params req) !! "workflow_id" = Some (JString wfID) ->
    wfID <> EmptyString ->
    snd (client.DescribeWorkflowExecution c wfID (run_id_of req)) = None ->
    workflowservice.GetWorkflowExecutionInfo
      (fst (client.DescribeWorkflowExecution c wfID (run_id_of req))) = None ->
    describe_fails req NotFound.

End Server.

(** ** Reading a rendered text back *)

Definition is_LF (ch : ascii) : bool := (ch =? "010")%char.

Fixpoint contains_LF (s : string) : bool :=
  match s with
  | EmptyString => false
  | String ch s' => is_LF ch || contains_LF s'
  end.

(** The pieces of [s] between line feeds, as [strings.Split(s, LF)] gives
    them: never empty, the last piece is what follows the last line feed. *)
Fixpoint split_lines (s : string) : list string :=
  match s with
  | EmptyString => [EmptyString]
  | String ch s' =>
      if is_LF ch then EmptyString :: split_lines s'
      else match split_lines s' with
           | l :: ls => String ch l :: ls
           | [] => [String ch EmptyString]
           end
  end.

(** The lines of a text in which every line ends with a line feed. *)
Definition text_lines (text : string) : list string := removelast (split_lines text).

(** The detail block ends with an End Time line. *)
Definition ends_with_end_time_line (text : string) : bool :=
  match last (text_lines text) with
  | Some l => String.prefix "End Time: " l
  | None => false
  end.

(** Some line of the text is an End Time line. *)
Definition has_end_time_line (text : string) : bool :=
  existsb (String.prefix "End Time: ") (text_lines text).

(** The text of a result that carries exactly one text content. *)
Definition result_text (r : HandlerResult) : option string :=
  match r with
  | (Some {| mcp.Content := [ t ]; mcp.IsError := false |}, None) => Some (mcp.Text t)
  | _ => None
  end.

(** The calls on the client among the events of a trace. *)
Definition is_backend_call (e : Event) : bool :=
  match e with
  | LogPrintf _ => false
  | _ => true
  end.

Definition backend_calls (t : list Event) : list Event := List.filter is_backend_call t.

(** The page bound and the continuation token that a query carries. *)
Definition page_size (e : Event) : option Z :=
  match e with
  | ListOpenWorkflowCall r => Some (workflowservice.open_MaximumPageSize r)
  | ListClosedWorkflowCall r => Some (workflowservice.closed_MaximumPageSize r)
  | _ => None
  end.

Definition page_token (e : Event) : option string :=
  match e with
  | ListOpenWorkflowCall r => Some (workflowservice.open_NextPageToken r)
  | ListClosedWorkflowCall r => Some (workflowservice.closed_NextPageToken r)
  | _ => None
  end.

(** A backend that returns at most [MaximumPageSize] executions for a list
    request. *)
Definition honours_page_size (c : client.Client) : Prop :=
  (forall r, (List.length (workflowservice.open_GetExecutions
                             (fst (client.ListOpenWorkflow c r)))
              <= Z.to_nat (workflowservice.open_MaximumPageSize r))%nat)
  /\ (forall r, (List.length (workflowservice.closed_GetExecutions
                                (fst (client.ListClosedWorkflow c r)))
                 <= Z.to_nat (workflowservice.closed_MaximumPageSize r))%nat).

(** No line feed in the identifier, the run id or the type name. *)
Definition single_line_fields (info : option workflowpb.WorkflowExecutionInfo) : bool :=
  negb (contains_LF (commonpb.GetWorkflowId (workflowpb.GetExecution info)))
  && negb (contains_LF (commonpb.GetRunId (workflowpb.GetExecution info)))
  && negb (contains_LF (commonpb.GetName (workflowpb.GetType info))).

Definition is_Some_b {A} (x : option A) : bool :=
  match x with Some _ => true | None => false end.

(** ** A backend and library functions for the examples *)

Module Sample.

(** A case mapping that knows no letter outside ASCII: the ASCII letters
    of the string are lowered, every other byte is kept. *)
Definition mapUnicodeToLower : string -> string := strings.mapBytes strings.lowerByte.

Definition digit (n : Z) : ascii := ascii_of_nat (48 + Z.to_nat (n mod 10)).
Definition pad2 (n : Z) : string :=
  String (digit (n / 10)) (String (digit n) EmptyString).
Definition pad4 (n : Z) : string :=
  String (digit (n / 1000)) (String (digit (n / 100)) (pad2 n)).

(** Year, month and day of the proleptic Gregorian calendar for a number
    of days since 1970-01-01. *)
Definition civil_from_days (days : Z) : Z * Z * Z :=
  let z := (days + 719468)%Z in
  let era := (z / 146097)%Z in
  let doe := (z - era * 146097)%Z in
  let yoe := ((doe - doe / 1460 + doe / 36524 - doe / 146096) / 365)%Z in
  let doy := (doe - (365 * yoe + yoe / 4 - yoe / 100))%Z in
  let mp := ((5 * doy + 2) / 153)%Z in
  let d := (doy - (153 * mp + 2) / 5 + 1)%Z in
  let m := (if (mp <? 10)%Z then mp + 3 else mp - 9)%Z in
  let y := (yoe + era * 400 + (if (m <=? 2)%Z then 1 else 0))%Z in
  (y, m, d).

(** Date and time of day in UTC, in the layout of RFC 3339 with whole
    seconds; the year is printed with its last four digits. *)
Definition FormatRFC3339 (t : time.Time) : string :=
  let s := (time.sec t + time.nsec t / 1000000000)%Z in
  let '(y, m, d) := civil_from_days (s / 86400) in
  let r := (s mod 86400)%Z in
  pad4 y +:+ "-" +:+ pad2 m +:+ "-" +:+ pad2 d +:+ "T"
  +:+ pad2 (r / 3600) +:+ ":" +:+ pad2 (r / 60 mod 60) +:+ ":" +:+ pad2 (r mod 60)
  +:+ "Z".

(** Quoting for a string of printable ASCII without quote or backslash. *)
Definition Quote (s : string) : string :=
  String "034"%char (s +:+ String "034"%char EmptyString).

(** The executions a backend knows, most recent first. *)
Record Visibility := {
  openExecutions : list workflowpb.WorkflowExecutionInfo;
  closedExecutions : list workflowpb.WorkflowExecutionInfo
}.

Definition matchesStatus (f : option filterpb.StatusFilter)
    (i : workflowpb.WorkflowExecutionInfo) : bool :=
  match f with
  | Some f => (workflowpb.Status i =? filterpb.Status f)%Z
  | None => true
  end.

Definition identifies (wfID runID : string) (i : workflowpb.WorkflowExecutionInfo) : bool :=
  (commonpb.GetWorkflowId (workflowpb.Execution i) =? wfID)%string
  && ((runID =? EmptyString)%string
      || (commonpb.GetRunId (workflowpb.Execution i) =? runID)%string).

(** A backend that answers from [v]: it honours the page size and the
    status filter of a list request, and resolves an empty run id to the
    most recent run of the workflow id. *)
Definition serve (v : Visibility) : client.Client :=
  {| client.ListOpenWorkflow r :=
       (Some {| workflowservice.open_Executions :=
                  map Some (take (Z.to_nat (workflowservice.open_MaximumPageSize r))
                                 (openExecutions v));
                workflowservice.open_ResponsePageToken := EmptyString |}, None);
     client.ListClosedWorkflow r :=
       (Some {| workflowservice.closed_Executions :=
                  map Some (take (Z.to_nat (workflowservice.closed_MaximumPageSize r))
                                 (List.filter (matchesStatus (workflowservice.GetStatusFilter r))
                                              (closedExecutions v)));
                workflowservice.closed_ResponsePageToken := EmptyString |}, None);
     client.DescribeWorkflowExecution wfID runID :=
       match List.find (identifies wfID runID) (openExecutions v ++ closedExecutions v)%list with
       | Some i => (Some {| workflowservice.WorkflowExecutionInfo := Some i |}, None)
       | None => (None, Some (errorString "workflow execution not found"))
       end |}.

(** A backend whose describe call succeeds without a detail payload. *)
Definition hollow : client.Client :=
  {| client.ListOpenWorkflow _ := (None, None);
     client.ListClosedWorkflow _ := (None, None);
     client.DescribeWorkflowExecution _ _ :=
       (Some {| workflowservice.WorkflowExecutionInfo := None |}, None) |}.

(** A backend on which every call fails. *)
Definition unreachable : client.Client :=
  {| client.ListOpenWorkflow _ := (None, Some (errorString "context deadline exceeded"));
     client.ListClosedWorkflow _ := (None, Some (errorString "context deadline exceeded"));
     client.DescribeWorkflowExecution _ _ :=
       (None, Some (errorString "context deadline exceeded")) |}.

Definition execution (wfID runID wfType : string) (start : Z) (close : option Z)
    (status : enumspb.WorkflowExecutionStatus) : workflowpb.WorkflowExecutionInfo :=
  {| workflowpb.Execution := Some {| commonpb.WorkflowId := wfID; commonpb.RunId := runID |};
     workflowpb.Type_ := Some {| commonpb.Name := wfType |};
     workflowpb.StartTime := Some {| timestamppb.Seconds := start; timestamppb.Nanos := 0%Z |};
     workflowpb.CloseTime :=
       match close with
       | Some t => Some {| timestamppb.Seconds := t; timestamppb.Nanos := 0%Z |}
       | None => None
       end;
     workflowpb.Status := status |}.

Definition store : Visibility :=
  {| openExecutions :=
       [ execution "order-7" "run-c" "OrderWorkflow" 1700000300%Z None
           enumspb.WORKFLOW_EXECUTION_STATUS_RUNNING ];
     closedExecutions :=
       [ execution "order-5" "run-b" "OrderWorkflow" 1700000100%Z (Some 1700000200%Z)
           enumspb.WORKFLOW_EXECUTION_STATUS_TERMINATED;
         execution "order-5" "run-a" "OrderWorkflow" 1700000000%Z (Some 1700000050%Z)
           enumspb.WORKFLOW_EXECUTION_STATUS_COMPLETED ] |}.

Definition empty_store : Visibility :=
  {| openExecutions := []; closedExecutions := [] |}.

(** A request whose arguments are given as a list of pairs. *)
Definition request (name : string) (args : list (string * JSON)) : mcp.CallToolRequest :=
  {| mcp.Params := {| mcp.Name := name; mcp.Arguments := list_to_map args |} |}.

Definition list_workflows (c : client.Client) (req : mcp.CallToolRequest) : Eff HandlerResult :=
  list_workflows_handler mapUnicodeToLower FormatRFC3339 "default" c req.

Definition describe_workflow (c : client.Client) (req : mcp.CallToolRequest) : Eff HandlerResult :=
  describe_workflow_handler FormatRFC3339 Quote c req.

End Sample.


(** ** Start-up: [main] (main.go, lines 20-201) *)

Module log.
(** The flag bits of package log. *)
Definition Ldate : Z := 1.
Definition Ltime : Z := 2.
Definition Lmicroseconds : Z := 4.
Definition Llongfile : Z := 8.
Definition Lshortfile : Z := 16.
Definition LUTC : Z := 32.
End log.

(** Tool definitions of package mcp: a tool is built from its name by
    options applied in order; [WithString] declares a string property and
    moves a [required] mark from the property to the schema's list. *)
Module tool.

Record ToolInputSchema := {
  Type_ : string;
  Properties : gmap string JSON;
  RequiredProperties : list string
}.

Record Tool := {
  Name : string;
  ToolDescription : string;
  InputSchema : ToolInputSchema
}.

Definition ToolOption : Type := Tool -> Tool.
Definition PropertyOption : Type := gmap string JSON -> gmap string JSON.

Definition NewTool (name : string) (opts : list ToolOption) : Tool :=
  fold_left (fun t opt => opt t) opts
    {| Name := name;
       ToolDescription := EmptyString;
       InputSchema := {| Type_ := "object"; Properties := ∅; RequiredProperties := [] |} |}.

Definition WithDescription (description : string) : ToolOption :=
  fun t => {| Name := Name t; ToolDescription := description;
              InputSchema := InputSchema t |}.

Definition Description (desc : string) : PropertyOption :=
  fun schema => <["description" := JString desc]> schema.

(** [mcp.Required()]. *)
Definition Required : PropertyOption :=
  fun schema => <["required" := JBool true]> schema.

Definition WithString (name : string) (opts : list PropertyOption) : ToolOption :=
  fun t =>
    let schema := fold_left (fun s opt => opt s) opts {["type" := JString "string"]} in
    let required :=
      match schema !! "required" with
      | Some (JBool true) => true
      | _ => false
      end in
    {| Name := Name t;
       ToolDescription := ToolDescription t;
       InputSchema :=
         {| Type_ := Type_ (InputSchema t);
            Properties :=
              <[name := JObject (if required then delete "required" schema else schema)]>
                (Properties (InputSchema t));
            RequiredProperties :=
              if required then (RequiredProperties (InputSchema t) ++ [name])%list
              else RequiredProperties (InputSchema t) |} |}.

End tool.

(** The server of package server, as far as [main] builds it: the tools
    registered so far, by name. *)
Module server.

Record ServerTool := {
  Tool : tool.Tool;
  Handler : mcp.CallToolRequest -> Eff HandlerResult
}.

Record MCPServer := {
  name : string;
  version : string;
  tools : gmap string ServerTool
}.

Definition NewMCPServer (name version : string) : MCPServer :=
  {| name := name; version := version; tools := ∅ |}.

(** [AddTool] stores the tool under its name, replacing an earlier tool of
    that name. *)
Definition AddTool (s : MCPServer) (t : tool.Tool)
    (handler : mcp.CallToolRequest -> Eff HandlerResult) : MCPServer :=
  {| name := name s; version := version s;
     tools := <[tool.Name t := {| Tool := t; Handler := handler |}]> (tools s) |}.

End server.

(** What [main] finds around it: the environment variables, what dialing
    the backend gives (an error, or else a client) and what serving on
    standard input and output ends with. *)
Record World := {
  environ : gmap string string;
  Dial : string -> string -> error + client.Client;
  ServeStdio : server.MCPServer -> option error
}.

(** [os.Getenv]: the empty string when the variable is not set. *)
Definition Getenv (w : World) (key : string) : string :=
  default EmptyString (environ w !! key).

(** Lines 25-32: the address and the namespace that [main] settles on. *)
Definition configured_address (w : World) : string :=
  if (Getenv w "TEMPORAL_ADDRESS" =? EmptyString)%string then "localhost:7233"
  else Getenv w "TEMPORAL_ADDRESS".

Definition configured_namespace (w : World) : string :=
  if (Getenv w "TEMPORAL_NAMESPACE" =? EmptyString)%string then "default"
  else Getenv w "TEMPORAL_NAMESPACE".

(** What [main] does, in order. [Fatalf] logs and leaves the process with
    status 1 without running deferred calls. *)
Inductive MainEvent :=
| SetFlags (flags : Z)
| DialCall (HostPort Namespace : string)
| Fatalf (line : string)
| Printf (line : string)
| Println (line : string)
| ServeStdioCall (s : server.MCPServer)
| CloseCall.

Section Main.

Variable mapUnicodeToLower : string -> string.
Variable FormatRFC3339 : time.Time -> string.
Variable Quote : string -> string.

(** Lines 49-56. *)
Definition listWorkflowsTool : tool.Tool :=
  tool.NewTool "list_workflows"
    [ tool.WithDescription
        "List Temporal workflows filtered by status (running, completed, or failed)";
      tool.WithString "status"
        [ tool.Required;
          tool.Description "Workflow status to filter by (running, completed, failed)" ] ].

(** Lines 59-69. *)
Definition describeWorkflowTool : tool.Tool :=
  tool.NewTool "describe_workflow"
    [ tool.WithDescription
        "Retrieve detailed information about a specific workflow execution";
      tool.WithString "workflow_id"
        [ tool.Required;
          tool.Description "Workflow ID of the execution to describe" ];
      tool.WithString "run_id"
        [ tool.Description "Optional Run ID (if not provided, the latest run is used)" ] ].

(** [main]: its events and the exit status of the process. *)
Definition main (w : World) : list MainEvent * Z :=
  let flags := Z.lor (Z.lor (Z.lor log.Ldate log.Ltime) log.LUTC) log.Lshortfile in
  let temporalAddress := Getenv w "TEMPORAL_ADDRESS" in
  let temporalNamespace := Getenv w "TEMPORAL_NAMESPACE" in
  let temporalAddress :=
    if (temporalAddress =? EmptyString)%string then "localhost:7233"
    else temporalAddress in
  let temporalNamespace :=
    if (temporalNamespace =? EmptyString)%string then "default"
    else temporalNamespace in
  match Dial w temporalAddress temporalNamespace with
  | inl err =>
      ([ SetFlags flags;
         DialCall temporalAddress temporalNamespace;
         Fatalf ("Unable to connect to Temporal at " +:+ temporalAddress
                 +:+ " (namespace " +:+ temporalNamespace +:+ "): " +:+ fmt.v err) ],
       1%Z)
  | inr c =>
      let mcpServer := server.NewMCPServer "temporal-mcp" "1.0.0" in
      let mcpServer :=
        server.AddTool mcpServer listWorkflowsTool
          (list_workflows_handler mapUnicodeToLower FormatRFC3339 temporalNamespace c) in
      let mcpServer :=
        server.AddTool mcpServer describeWorkflowTool
          (describe_workflow_handler FormatRFC3339 Quote c) in
      let started :=
        [ SetFlags flags;
          DialCall temporalAddress temporalNamespace;
          Printf ("Connected to Temporal at " +:+ temporalAddress
                  +:+ " (namespace: " +:+ temporalNamespace +:+ ")");
          Println "Starting temporal-mcp server...";
          ServeStdioCall mcpServer ] in
      match ServeStdio w mcpServer with
      | Some err =>
          ((started ++ [ Fatalf ("MCP server error: " +:+ fmt.v err) ])%list, 1%Z)
      | None => ((started ++ [ CloseCall ])%list, 0%Z)
      end
  end.

End Main.

(** The tool that a server holds under a name, and its handler. *)
Definition registered (s : server.MCPServer) (name : string) : option tool.Tool :=
  server.Tool <$> server.tools s !! name.

Definition handler_of (s : server.MCPServer) (name : string)
  : option (mcp.CallToolRequest -> Eff HandlerResult) :=
  server.Handler <$> server.tools s !! name.

(** The server that [main] serves, if it gets that far. *)
Definition served (t : list MainEvent) : option server.MCPServer :=
  match List.find (fun e => match e with ServeStdioCall _ => true | _ => false end) t with
  | Some (ServeStdioCall s) => Some s
  | _ => None
  end.


Definition is_dial (e : MainEvent) : bool :=
  match e with
  | DialCall _ _ => true
  | _ => false
  end.

Definition is_fatal (e : MainEvent) : bool :=
  match e with
  | Fatalf _ => true
  | _ => false
  end.

Definition is_close (e : MainEvent) : bool :=
  match e with
  | CloseCall => true
  | _ => false
  end.

(** The namespace of a list query. *)
Definition query_namespace (e : Event) : option string :=
  match e with
  | ListOpenWorkflowCall r => Some (workflowservice.open_Namespace r)
  | ListClosedWorkflowCall r => Some (workflowservice.closed_Namespace r)
  | _ => None
  end.

Definition is_log (e : Event) : bool :=
  match e with
  | LogPrintf _ => true
  | _ => false
  end.

(** Two byte strings that differ at most in the case of ASCII letters. *)
Definition equal_fold_ascii (s k : string) : bool :=
  (strings.mapBytes strings.lowerByte s =? strings.mapBytes strings.lowerByte k)%string.

Definition is_letter (ch : ascii) : bool :=
  let n := nat_of_ascii ch in
  ((65 <=? n)%nat && (n <=? 90)%nat) || ((97 <=? n)%nat && (n <=? 122)%nat).

Fixpoint all_letters (s : string) : bool :=
  match s with
  | EmptyString => true
  | String ch s' => is_letter ch && all_letters s'
  end.

(** Worlds for the examples. *)
Module SampleWorld.

Definition reachable : World :=
  {| environ := {[ "TEMPORAL_NAMESPACE" := "orders"; "TEMPORAL_ADDRESS" := EmptyString ]};
     Dial _ _ := inr (Sample.serve Sample.store);
     ServeStdio _ := None |}.

Definition refused : World :=
  {| environ := ∅;
     Dial _ _ := inl (errorString "connection refused");
     ServeStdio _ := None |}.

Definition broken_pipe : World :=
  {| environ := ∅;
     Dial _ _ := inr (Sample.serve Sample.store);
     ServeStdio _ := Some (errorString "broken pipe") |}.

Definition main (w : World) : list MainEvent * Z :=
  main Sample.mapUnicodeToLower Sample.FormatRFC3339 Sample.Quote w.

End SampleWorld.

(** * Properties *)

(** ** Bytes and lower-casing *)

Lemma lowerByte_idem ch : strings.lowerByte (strings.lowerByte ch) = strings.lowerByte ch.
Proof. destruct ch as [[] [] [] [] [] [] [] []]; reflexivity. Qed.

Lemma isUpper_lowerByte ch : strings.isUpper (strings.lowerByte ch) = false.
Proof. destruct ch as [[] [] [] [] [] [] [] []]; reflexivity. Qed.

Lemma lowerByte_ascii ch :
  (nat_of_ascii (strings.lowerByte ch) <? 128)%nat = (nat_of_ascii ch <? 128)%nat.
Proof. destruct ch as [[] [] [] [] [] [] [] []]; reflexivity. Qed.

Lemma hasUpper_mapBytes_lower s :
  strings.hasUpper (strings.mapBytes strings.lowerByte s) = false.
Proof.
  induction s as [|ch s IH]; simpl; [reflexivity|].
  now rewrite isUpper_lowerByte, IH.
Qed.

Lemma isASCII_mapBytes_lower s :
  strings.isASCII (strings.mapBytes strings.lowerByte s) = strings.isASCII s.
Proof.
  induction s as [|ch s IH]; simpl; [reflexivity|].
  now rewrite lowerByte_ascii, IH.
Qed.

Lemma mapBytes_lower_idem s :
  strings.mapBytes strings.lowerByte (strings.mapBytes strings.lowerByte s)
  = strings.mapBytes strings.lowerByte s.
Proof.
  induction s as [|ch s IH]; simpl; [reflexivity|].
  now rewrite lowerByte_idem, IH.
Qed.

(** Lowering an ASCII string is idempotent whatever the Unicode tables. *)
Lemma ToLower_idem_ascii f s :
  strings.isASCII s = true -> strings.ToLower f (strings.ToLower f s) = strings.ToLower f s.
Proof.
  intros Hs. unfold strings.ToLower at 2 3. rewrite Hs.
  destruct (strings.hasUpper s) eqn:Hu.
  - unfold strings.ToLower.
    now rewrite isASCII_mapBytes_lower, Hs, hasUpper_mapBytes_lower.
  - unfold strings.ToLower. now rewrite Hs, Hu.
Qed.

(** With tables whose output is already lower case, it is idempotent on
    every string. *)
Lemma ToLower_idem f :
  (forall s, strings.isASCII s = false -> strings.ToLower f (f s) = f s) ->
  forall s, strings.ToLower f (strings.ToLower f s) = strings.ToLower f s.
Proof.
  intros Hf s. destruct (strings.isASCII s) eqn:Hs.
  - now apply ToLower_idem_ascii.
  - unfold strings.ToLower at 2 3. rewrite Hs. now apply Hf.
Qed.

(** The sample case mapping meets the assumption of [ToLower_idem]. *)
Lemma Sample_mapUnicodeToLower_lowered s :
  strings.isASCII s = false ->
  strings.ToLower Sample.mapUnicodeToLower (Sample.mapUnicodeToLower s)
  = Sample.mapUnicodeToLower s.
Proof.
  intros Hs. unfold strings.ToLower, Sample.mapUnicodeToLower.
  rewrite isASCII_mapBytes_lower, Hs. apply mapBytes_lower_idem.
Qed.

(** ** Strings and lines *)

Lemma append_nil_l s : EmptyString +:+ s = s.
Proof. reflexivity. Qed.

Lemma append_cons ch a b : String ch a +:+ b = String ch (a +:+ b).
Proof. reflexivity. Qed.

Lemma append_nil_r s : s +:+ EmptyString = s.
Proof. induction s as [|ch s IH]; [reflexivity|]. now rewrite append_cons, IH. Qed.

Lemma append_assoc a b d : (a +:+ b) +:+ d = a +:+ (b +:+ d).
Proof. induction a as [|ch a IH]; [reflexivity|]. now rewrite !append_cons, IH. Qed.

Lemma prefix_app p x : String.prefix p (p +:+ x) = true.
Proof.
  induction p as [|ch p IH]; [now destruct x|].
  rewrite append_cons. simpl. now destruct (ascii_dec ch ch).
Qed.

Lemma contains_LF_app a b : contains_LF (a +:+ b) = contains_LF a || contains_LF b.
Proof.
  induction a as [|ch a IH]; [reflexivity|].
  rewrite append_cons. simpl. now rewrite IH, orb_assoc.
Qed.

Lemma split_lines_nonempty s : split_lines s <> [].
Proof.
  destruct s as [|ch s]; simpl; [discriminate|].
  destruct (is_LF ch); [discriminate|]. now destruct (split_lines s).
Qed.

Lemma split_lines_single s : contains_LF s = false -> split_lines s = [s].
Proof.
  induction s as [|ch s IH]; simpl; [reflexivity|].
  intros [Hc Hs]%orb_false_elim. now rewrite Hc, (IH Hs).
Qed.

Lemma split_lines_app_LF a b :
  split_lines (a +:+ LF +:+ b) = (split_lines a ++ split_lines b)%list.
Proof.
  induction a as [|ch a IH]; [reflexivity|].
  rewrite append_cons. simpl. rewrite IH.
  destruct (is_LF ch); [reflexivity|].
  pose proof (split_lines_nonempty a). now destruct (split_lines a).
Qed.

Lemma text_lines_nil : text_lines EmptyString = [].
Proof. reflexivity. Qed.

Lemma text_lines_app_LF a rest :
  text_lines (a +:+ LF +:+ rest) = (split_lines a ++ text_lines rest)%list.
Proof.
  unfold text_lines. rewrite split_lines_app_LF.
  apply removelast_app, split_lines_nonempty.
Qed.

Lemma text_lines_cons l rest :
  contains_LF l = false -> text_lines (l +:+ LF +:+ rest) = l :: text_lines rest.
Proof. intros H. now rewrite text_lines_app_LF, split_lines_single. Qed.

(** A text made of lines without a line feed, each followed by one, reads
    back as these lines. *)
Lemma text_lines_concat {A} (f : A -> string) (xs : list A) :
  Forall (fun x => contains_LF (f x) = false) xs ->
  text_lines (String.concat EmptyString (map (fun x => f x +:+ LF) xs)) = map f xs.
Proof.
  assert (Hgen : forall rest,
    Forall (fun x => contains_LF (f x) = false) xs ->
    text_lines (String.concat EmptyString (map (fun x => f x +:+ LF) xs) +:+ rest)
    = (map f xs ++ text_lines rest)%list).
  { induction xs as [|x xs IH]; intros rest Hall; [reflexivity|].
    apply Forall_cons_1 in Hall as [Hx Hxs].
    destruct xs as [|y ys].
    - simpl. now rewrite append_assoc, text_lines_cons.
    - change (String.concat EmptyString (map (fun x => f x +:+ LF) (x :: y :: ys)))
        with ((f x +:+ LF) +:+ EmptyString
              +:+ String.concat EmptyString (map (fun x => f x +:+ LF) (y :: ys))).
      rewrite append_nil_l, !append_assoc, text_lines_cons by assumption.
      simpl map at 2. simpl app. f_equal. now apply IH. }
  intros Hall. specialize (Hgen EmptyString Hall).
  now rewrite append_nil_r, text_lines_nil, app_nil_r in Hgen.
Qed.

Lemma contains_LF_status st : contains_LF (workflowStatusToString st) = false.
Proof.
  unfold workflowStatusToString.
  repeat match goal with |- context [ if ?b then _ else _ ] => destruct b end;
    reflexivity.
Qed.

Lemma contains_LF_decimal u : contains_LF (NilEmpty.string_of_uint u) = false.
Proof. induction u; simpl; auto. Qed.

Lemma contains_LF_d n : contains_LF (fmt.d n) = false.
Proof.
  unfold fmt.d, NilZero.string_of_uint.
  destruct (Nat.to_uint n); try reflexivity; apply (contains_LF_decimal (_ _)).
Qed.

(** ** The list_workflows handler, path by path *)

Section ListWorkflows.

Context (mapUnicodeToLower : string -> string) (FormatRFC3339 : time.Time -> string)
        (temporalNamespace : string) (c : client.Client).

Local Abbreviation lower := (ToLower mapUnicodeToLower).
Local Abbreviation classify_ := (classify mapUnicodeToLower).
Local Abbreviation handler :=
  (list_workflows_handler mapUnicodeToLower FormatRFC3339 temporalNamespace c).
Local Abbreviation render := (render_executions FormatRFC3339).
Local Abbreviation query := (query_of temporalNamespace).
Local Abbreviation answer := (answer_of temporalNamespace c).
Local Abbreviation status_of req := (mcp.Arguments (mcp.Params req) !! "status").

Lemma classify_Some statusVal i :
  classify_ statusVal = Some i -> lower statusVal = status_label i.
Proof.
  unfold classify. cbv zeta.
  destruct (String.eqb_spec (lower statusVal) "running") as [->|_];
    [intros [= <-]; reflexivity|].
  destruct (String.eqb_spec (lower statusVal) "completed") as [->|_];
    [intros [= <-]; reflexivity|].
  destruct (String.eqb_spec (lower statusVal) "failed") as [->|_];
    [intros [= <-]; reflexivity|].
  discriminate.
Qed.

Lemma classify_label statusVal i :
  lower statusVal = status_label i -> classify_ statusVal = Some i.
Proof. unfold classify. cbv zeta. intros ->. now destruct i. Qed.

Lemma classify_None statusVal :
  classify_ statusVal = None <-> ~ is_status_keyword mapUnicodeToLower statusVal.
Proof.
  unfold classify, is_status_keyword. cbv zeta.
  destruct (String.eqb_spec (lower statusVal) "running") as [->|H1];
    [split; [discriminate | intros H; exfalso; apply H; now left]|].
  destruct (String.eqb_spec (lower statusVal) "completed") as [->|H2];
    [split; [discriminate | intros H; exfalso; apply H; right; now left]|].
  destruct (String.eqb_spec (lower statusVal) "failed") as [->|H3];
    [split; [discriminate | intros H; exfalso; apply H; right; now right]|].
  split; [intros _ [?|[?|?]]; contradiction | reflexivity].
Qed.

Lemma classify_Some_nonempty statusVal i :
  classify_ statusVal = Some i -> statusVal <> EmptyString.
Proof. intros H ->. apply classify_Some in H. now destruct i. Qed.

(** Lines 74-77: a missing, non-string or empty status. *)
Lemma list_workflows_invalid_argument req :
  (forall s, status_of req = Some (JString s) -> s = EmptyString) ->
  handler req
  = ([], (Some (mcp.NewToolResultError "Missing or invalid 'status' parameter"), None)).
Proof.
  intros H. unfold list_workflows_handler.
  destruct (status_of req) as [[| | |s| |]|]; simpl; try reflexivity.
  now rewrite (H s eq_refl).
Qed.

(** Lines 78-143 for a non-empty string: the query part, then either its
    early return or the rendering of the executions. *)
Lemma list_workflows_nonempty req statusVal :
  status_of req = Some (JString statusVal) ->
  statusVal <> EmptyString ->
  handler req
  = (let* r := list_executions temporalNamespace c statusVal (lower statusVal) in
     match r with
     | inl returned => ret returned
     | inr executions => ret (render (lower statusVal) executions)
     end).
Proof.
  intros Hreq Hne. unfold list_workflows_handler. rewrite Hreq. simpl.
  now destruct (String.eqb_spec statusVal EmptyString).
Qed.

(** The query part on a string that is classified to an intent: one query,
    and the log line and the early return when it fails. *)
Lemma list_executions_classified statusVal i :
  classify_ statusVal = Some i ->
  list_executions temporalNamespace c statusVal (lower statusVal)
  = match snd (answer i) with
    | Some err =>
        ([query i;
          LogPrintf ("Error listing " +:+ status_label i +:+ " workflows: " +:+ Error err)],
         inl (Some (mcp.NewToolResultError
                      ("Failed to list " +:+ status_label i +:+ " workflows: "
                       +:+ Error err)), None))
    | None => ([query i], inr (fst (answer i)))
    end.
Proof.
  intros Hc. rewrite (classify_Some _ _ Hc).
  unfold list_executions, c_ListOpenWorkflow, c_ListClosedWorkflow.
  destruct i; simpl; unfold open_request, closed_request;
    match goal with
    | |- context [client.ListOpenWorkflow c ?r] =>
        destruct (client.ListOpenWorkflow c r) as [resp [err|]]
    | |- context [client.ListClosedWorkflow c ?r] =>
        destruct (client.ListClosedWorkflow c r) as [resp [err|]]
    end; reflexivity.
Qed.

(** The query part on any other string: the early return of lines 113-116,
    without a query. *)
Lemma list_executions_rejected statusVal :
  classify_ statusVal = None ->
  list_executions temporalNamespace c statusVal (lower statusVal)
  = ret (inl (Some (mcp.NewToolResultError
                      ("Unsupported status '" +:+ statusVal
                       +:+ "' (use running, completed, or failed)")), None)).
Proof.
  unfold classify, list_executions. cbv zeta.
  destruct (lower statusVal =? "running")%string; [discriminate|].
  destruct (lower statusVal =? "completed")%string; [discriminate|].
  destruct (lower statusVal =? "failed")%string; [discriminate|].
  reflexivity.
Qed.

Lemma list_workflows_unsupported req statusVal :
  status_of req = Some (JString statusVal) ->
  statusVal <> EmptyString ->
  classify_ statusVal = None ->
  handler req
  = ([], (Some (mcp.NewToolResultError
                  ("Unsupported status '" +:+ statusVal
                   +:+ "' (use running, completed, or failed)")), None)).
Proof.
  intros Hreq Hne Hc.
  now rewrite (list_workflows_nonempty req statusVal Hreq Hne),
              (list_executions_rejected statusVal Hc).
Qed.

(** Lines 88-91 and 108-111: the query comes back with an error. *)
Lemma list_workflows_query_failed req statusVal i err :
  status_of req = Some (JString statusVal) ->
  classify_ statusVal = Some i ->
  snd (answer i) = Some err ->
  handler req
  = ([query i;
      LogPrintf ("Error listing " +:+ status_label i +:+ " workflows: " +:+ Error err)],
     (Some (mcp.NewToolResultError
              ("Failed to list " +:+ status_label i +:+ " workflows: " +:+ Error err)),
      None)).
Proof.
  intros Hreq Hc Herr.
  rewrite (list_workflows_nonempty req statusVal Hreq (classify_Some_nonempty _ _ Hc)),
          (list_executions_classified statusVal i Hc), Herr.
  reflexivity.
Qed.

(** Lines 92, 112 and 118-143: the query succeeds and its executions
    are rendered. *)
Lemma list_workflows_ok req statusVal i :
  status_of req = Some (JString statusVal) ->
  classify_ statusVal = Some i ->
  snd (answer i) = None ->
  handler req = ([query i], render (status_label i) (fst (answer i))).
Proof.
  intros Hreq Hc Herr.
  rewrite (list_workflows_nonempty req statusVal Hreq (classify_Some_nonempty _ _ Hc)),
          (list_executions_classified statusVal i Hc), Herr, (classify_Some _ _ Hc).
  reflexivity.
Qed.

(** On a backend that honours the page size, a query returns at most 100
    executions. *)
Lemma answer_bounded i :
  honours_page_size c -> (List.length (fst (answer i)) <= 100)%nat.
Proof.
  intros [Hopen Hclosed].
  destruct i; simpl;
    [apply (Hopen (open_request temporalNamespace))
    | apply (Hclosed (closed_request temporalNamespace))..].
Qed.

(** A string that is classified to no intent is refused before any query. *)
Lemma list_workflows_refuses req statusVal :
  status_of req = Some (JString statusVal) ->
  classify_ statusVal = None ->
  exists msg, handler req = ([], (Some (mcp.NewToolResultError msg), None)).
Proof.
  intros Hreq Hc. destruct (String.eqb_spec statusVal EmptyString) as [He|Hne].
  - eexists. apply list_workflows_invalid_argument.
    intros s Hs. congruence.
  - eexists. now apply (list_workflows_unsupported req statusVal).
Qed.

(** The closed-executions query of lines 101-107 carries no status. *)
Lemma closed_request_status_filter :
  workflowservice.GetStatusFilter (closed_request temporalNamespace) = None.
Proof. reflexivity. Qed.

(** The intents [Completed] and [Failed] are served by one and the same
    query: whatever the backend, both obtain the same executions. *)
Lemma completed_and_failed_share_the_query statusVal statusVal' :
  backend_calls (trace (list_executions temporalNamespace c statusVal "completed"))
  = backend_calls (trace (list_executions temporalNamespace c statusVal' "failed"))
  /\ forall executions,
       value (list_executions temporalNamespace c statusVal "completed") = inr executions
       <-> value (list_executions temporalNamespace c statusVal' "failed") = inr executions.
Proof.
  unfold list_executions, c_ListClosedWorkflow. simpl.
  destruct (client.ListClosedWorkflow c _) as [resp [err|]]; simpl.
  - split; [reflexivity|]. intros executions. split; discriminate.
  - split; [reflexivity|]. intros executions. reflexivity.
Qed.

(** C2, as amended. With status [running] and a backend that returns no open
    execution, the handler issues the open-executions query and returns the
    successful text [No running workflows found.], which ends with the full
    stop: there is no line feed after it. *)
Theorem list_running_empty_text req :
  status_of req = Some (JString "running") ->
  snd (client.ListOpenWorkflow c (open_request temporalNamespace)) = None ->
  workflowservice.open_GetExecutions
    (fst (client.ListOpenWorkflow c (open_request temporalNamespace))) = [] ->
  handler req
  = ([ListOpenWorkflowCall (open_request temporalNamespace)],
     (Some (mcp.NewToolResultText "No running workflows found."), None)).
Proof.
  intros Hreq Herr Hnone.
  rewrite (list_workflows_ok req "running" Running Hreq eq_refl Herr).
  simpl. now rewrite Hnone.
Qed.

(** C3. Whenever the status argument is not a string that lowers to
    [running], [completed] or [failed] (it is missing, null, of another
    type, empty, or any other string), list_workflows returns an error
    result, with a nil Go error, and issues no query. *)
Theorem list_workflows_rejects_other_status req :
  (forall s, status_of req = Some (JString s) ->
             ~ is_status_keyword mapUnicodeToLower s) ->
  exists msg, handler req = ([], (Some (mcp.NewToolResultError msg), None)).
Proof.
  intros H. destruct (status_of req) as [[| | |s| |]|] eqn:Hreq;
    try (eexists; apply list_workflows_invalid_argument; intros s Hs;
         rewrite Hreq in Hs; discriminate).
  apply (list_workflows_refuses req s Hreq). apply classify_None. now apply H.
Qed.

(** C4. A raw status string and its lower-cased form are classified
    alike (same intent, or both rejected): for every ASCII string without
    condition, and for every string provided the Unicode branch of
    [strings.ToLower] returns a string that [strings.ToLower] leaves alone.
    For the handler: when the string is accepted, the invocation with the
    lower-cased form has the same effects and the same result; when it is
    rejected, both invocations return an error result without a query. *)
Theorem classify_ToLower_invariant :
  (forall statusVal, strings.isASCII statusVal = true ->
                     classify_ (lower statusVal) = classify_ statusVal)
  /\ ((forall s, strings.isASCII s = false ->
                 lower (mapUnicodeToLower s) = mapUnicodeToLower s) ->
      forall statusVal,
        classify_ (lower statusVal) = classify_ statusVal
        /\ forall req req',
             status_of req = Some (JString statusVal) ->
             status_of req' = Some (JString (lower statusVal)) ->
             match classify_ statusVal with
             | Some _ => handler req' = handler req
             | None =>
                 (exists msg,
                    handler req = ([], (Some (mcp.NewToolResultError msg), None)))
                 /\ (exists msg,
                       handler req' = ([], (Some (mcp.NewToolResultError msg), None)))
             end).
Proof.
  split.
  { intros statusVal Hs. unfold classify. cbv zeta. unfold ToLower.
    now rewrite (ToLower_idem_ascii _ _ Hs). }
  intros Hf statusVal.
  assert (Hcl : classify_ (lower statusVal) = classify_ statusVal).
  { unfold classify. cbv zeta. unfold ToLower. now rewrite (ToLower_idem _ Hf). }
  split; [exact Hcl|]. intros req req' Hreq Hreq'.
  destruct (classify_ statusVal) as [i|] eqn:Hc.
  - destruct (snd (answer i)) as [err|] eqn:Herr.
    + now rewrite (list_workflows_query_failed req _ i err Hreq Hc Herr),
                  (list_workflows_query_failed req' _ i err Hreq' Hcl Herr).
    + now rewrite (list_workflows_ok req _ i Hreq Hc Herr),
                  (list_workflows_ok req' _ i Hreq' Hcl Herr).
  - split; [now apply (list_workflows_refuses req statusVal)
           | now apply (list_workflows_refuses req' (lower statusVal))].
Qed.

(** C9. For a status classified to an intent, the query part of the
    handler, and the handler as a whole, call the backend exactly once:
    the open-executions query for [Running], the closed-executions query
    otherwise, with [MaximumPageSize] 100 and an empty [NextPageToken]; the
    page token of the response is never read. On a backend that honours
    the page size, the executions handed to the renderer are at most 100. *)
Theorem list_executions_single_query_of_100 req statusVal i :
  status_of req = Some (JString statusVal) ->
  classify_ statusVal = Some i ->
  let run := list_executions temporalNamespace c statusVal (lower statusVal) in
  backend_calls (trace run) = [query i]
  /\ backend_calls (trace (handler req)) = [query i]
  /\ page_size (query i) = Some 100%Z
  /\ page_token (query i) = Some EmptyString
  /\ (honours_page_size c ->
      forall executions, value run = inr executions ->
                         (List.length executions <= 100)%nat).
Proof.
  intros Hreq Hc run. subst run.
  rewrite (list_workflows_nonempty req statusVal Hreq (classify_Some_nonempty _ _ Hc)),
          (list_executions_classified statusVal i Hc).
  assert (Hq : is_backend_call (query i) = true) by now destruct i.
  destruct (snd (answer i)) as [err|] eqn:Herr;
    (split; [|split; [|split; [|split]]]); try (now destruct i);
    try (unfold backend_calls, trace; simpl; now rewrite Hq).
  unfold value. simpl. intros Hp executions [= <-]. now apply answer_bounded.
Qed.

End ListWorkflows.

(** ** Rendering *)

Section Rendering.

Context (FormatRFC3339 : time.Time -> string).

Local Abbreviation body := (summary_body FormatRFC3339).
Local Abbreviation line := (summary_line FormatRFC3339).

Lemma concat_cons (x : string) (l : list string) :
  String.concat EmptyString (x :: l) = x +:+ String.concat EmptyString l.
Proof. destruct l; simpl; [now rewrite append_nil_r | reflexivity]. Qed.

(** One pass of the loop appends the line of its element. *)
Lemma list_loop_body_line b info :
  list_loop_body FormatRFC3339 b info = b +:+ line info.
Proof.
  unfold list_loop_body, summary_line, summary_body, strings.WriteString.
  destruct (workflowpb.GetCloseTime info); now rewrite !append_assoc.
Qed.

Lemma fold_list_loop_body executions b :
  fold_left (list_loop_body FormatRFC3339) executions b
  = b +:+ String.concat EmptyString (map line executions).
Proof.
  revert b. induction executions as [|info executions IH]; intros b.
  - simpl. now rewrite append_nil_r.
  - simpl fold_left. rewrite IH, list_loop_body_line.
    change (map line (info :: executions)) with (line info :: map line executions).
    now rewrite concat_cons, append_assoc.
Qed.

(** The handler's rendering is RenderList. *)
Lemma render_executions_RenderList statusLabel executions :
  render_executions FormatRFC3339 statusLabel executions
  = (Some (mcp.NewToolResultText (RenderList FormatRFC3339 statusLabel executions)), None).
Proof.
  unfold render_executions, RenderList. destruct executions as [|info executions].
  - reflexivity.
  - change ((List.length (info :: executions) =? 0)%nat) with false. cbv iota.
    rewrite fold_list_loop_body. unfold strings.WriteString, list_header.
    now rewrite append_nil_l, !append_assoc.
Qed.

Lemma contains_LF_body info :
  (forall t, contains_LF (FormatRFC3339 t) = false) ->
  single_line_fields info = true ->
  contains_LF (body info) = false.
Proof.
  intros HF. unfold single_line_fields, summary_body.
  intros [[H1 H2]%andb_prop H3]%andb_prop.
  apply negb_true_iff in H1, H2, H3.
  rewrite !contains_LF_app, H1, H2, H3, contains_LF_status, HF.
  destruct (workflowpb.GetCloseTime info); [|reflexivity].
  now rewrite contains_LF_app, HF.
Qed.

(** C8. For a non-empty sequence of executions, the rendered text is the
    header with the count and the status label, followed by one
    line-feed-terminated entry per execution, in the order of the sequence,
    each entry being [summary_body]: identifier, run id, type, status, start
    time, and the end time only when the close time is present. When the
    label, the identifiers, run ids and type names hold no line feed (the
    formatted times never do), the lines of the text are exactly the header
    and one line per execution. *)
Theorem render_executions_in_input_order statusLabel executions :
  executions <> [] ->
  exists text,
    render_executions FormatRFC3339 statusLabel executions
    = (Some (mcp.NewToolResultText text), None)
    /\ text = list_header statusLabel (List.length executions) +:+ LF
              +:+ String.concat EmptyString (map (fun info => body info +:+ LF) executions)
    /\ ((forall t, contains_LF (FormatRFC3339 t) = false) ->
        contains_LF statusLabel = false ->
        forallb single_line_fields executions = true ->
        text_lines text
        = list_header statusLabel (List.length executions) :: map body executions).
Proof.
  intros Hne. eexists. split; [apply render_executions_RenderList|].
  unfold RenderList. destruct executions as [|info executions]; [contradiction|].
  split; [reflexivity|]. intros HF Hl Hall.
  rewrite text_lines_cons.
  - f_equal. apply (text_lines_concat body).
    apply Forall_forall. intros x Hx. apply contains_LF_body; [exact HF|].
    rewrite forallb_forall in Hall. now apply Hall, list_elem_of_In.
  - unfold list_header. now rewrite !contains_LF_app, contains_LF_d, Hl.
Qed.

Lemma text_lines_field p x rest :
  text_lines (p +:+ x +:+ LF +:+ rest) = (split_lines (p +:+ x) ++ text_lines rest)%list.
Proof. rewrite <- append_assoc. apply text_lines_app_LF. Qed.

Lemma text_lines_RenderDetail detail :
  (forall t, contains_LF (FormatRFC3339 t) = false) ->
  text_lines (RenderDetail FormatRFC3339 detail)
  = (split_lines "Workflow Execution Details:"
     ++ split_lines ("Workflow ID: " +:+ commonpb.GetWorkflowId (workflowpb.Execution detail))
     ++ split_lines ("Run ID: " +:+ commonpb.GetRunId (workflowpb.Execution detail))
     ++ split_lines ("Type: " +:+ commonpb.GetName (workflowpb.Type_ detail))
     ++ ["Status: " +:+ workflowStatusToString (workflowpb.Status detail)]
     ++ ["Start Time: " +:+ match workflowpb.StartTime detail with
                            | Some t => FormatRFC3339 (AsTime (Some t))
                            | None => EmptyString
                            end]
     ++ match workflowpb.CloseTime detail with
        | Some t => ["End Time: " +:+ FormatRFC3339 (AsTime (Some t))]
        | None => []
        end)%list.
Proof.
  intros HF. unfold RenderDetail.
  rewrite text_lines_app_LF, !text_lines_field.
  rewrite (split_lines_single ("Status: " +:+ _))
    by now rewrite contains_LF_app, contains_LF_status.
  rewrite (split_lines_single ("Start Time: " +:+ _))
    by (rewrite contains_LF_app; destruct (workflowpb.StartTime detail);
        [now rewrite HF | reflexivity]).
  do 6 f_equal.
  destruct (workflowpb.CloseTime detail) as [t|]; [|reflexivity].
  rewrite <- (append_nil_r (_ +:+ LF)), append_assoc, text_lines_field.
  now rewrite split_lines_single by now rewrite contains_LF_app, HF.
Qed.

(** C7. With a formatter that returns a non-empty string without a line
    feed (as the RFC 3339 layout does), the handler's detail text is
    RenderDetail: the header and the Workflow ID, Run ID, Type, Status and
    Start Time lines in that order, and then an End Time line exactly when
    the close time is present, its value being the non-empty formatted
    time. Reading the text back, its last line is an End Time line if and
    only if the close time is present; and when the identifier, run id and
    type name hold no line feed, the lines are exactly those six or seven
    and some line is an End Time line if and only if the close time is
    present. *)
Theorem render_detail_end_time_iff_close_time detail :
  (forall t, FormatRFC3339 t <> EmptyString) ->
  (forall t, contains_LF (FormatRFC3339 t) = false) ->
  render_detail FormatRFC3339 (Some detail)
  = (Some (mcp.NewToolResultText (RenderDetail FormatRFC3339 detail)), None)
  /\ ends_with_end_time_line (RenderDetail FormatRFC3339 detail)
     = is_Some_b (workflowpb.CloseTime detail)
  /\ (forall t, workflowpb.CloseTime detail = Some t ->
                FormatRFC3339 (AsTime (Some t)) <> EmptyString)
  /\ (single_line_fields (Some detail) = true ->
      text_lines (RenderDetail FormatRFC3339 detail)
      = (["Workflow Execution Details:";
          "Workflow ID: " +:+ commonpb.GetWorkflowId (workflowpb.Execution detail);
          "Run ID: " +:+ commonpb.GetRunId (workflowpb.Execution detail);
          "Type: " +:+ commonpb.GetName (workflowpb.Type_ detail);
          "Status: " +:+ workflowStatusToString (workflowpb.Status detail);
          "Start Time: " +:+ match workflowpb.StartTime detail with
                             | Some t => FormatRFC3339 (AsTime (Some t))
                             | None => EmptyString
                             end]
         ++ match workflowpb.CloseTime detail with
            | Some t => ["End Time: " +:+ FormatRFC3339 (AsTime (Some t))]
            | None => []
            end)%list
      /\ has_end_time_line (RenderDetail FormatRFC3339 detail)
         = is_Some_b (workflowpb.CloseTime detail)).
Proof.
  intros Hne HF. split; [|split; [|split]].
  - unfold render_detail, RenderDetail, strings.WriteString. simpl.
    destruct (workflowpb.StartTime detail) as [s|];
      destruct (workflowpb.CloseTime detail) as [t|]; simpl;
      try (destruct (String.eqb_spec (FormatRFC3339 (AsTime (Some t))) EmptyString)
             as [He|_]; [now apply Hne in He|]); simpl;
      now rewrite ?append_nil_l, ?append_nil_r, !append_assoc.
  - unfold ends_with_end_time_line. rewrite (text_lines_RenderDetail _ HF).
    destruct (workflowpb.CloseTime detail) as [t|].
    + rewrite !app_assoc, last_snoc. apply prefix_app.
    + rewrite app_nil_r, !app_assoc, last_snoc. reflexivity.
  - intros t _. apply Hne.
  - intros [[H1 H2]%andb_prop H3]%andb_prop.
    apply negb_true_iff in H1, H2, H3. simpl in H1, H2, H3.
    split.
    + rewrite (text_lines_RenderDetail _ HF).
      rewrite !split_lines_single; [reflexivity|..];
        rewrite ?contains_LF_app; auto.
    + unfold has_end_time_line. rewrite (text_lines_RenderDetail _ HF).
      rewrite !split_lines_single; [|rewrite ?contains_LF_app; auto..].
      destruct (workflowpb.CloseTime detail) as [t|]; [|reflexivity].
      unfold existsb, app. now rewrite prefix_app.
Qed.

End Rendering.

(** ** The describe_workflow handler, path by path *)

Section DescribeWorkflow.

Context (FormatRFC3339 : time.Time -> string) (Quote : string -> string)
        (c : client.Client).

Local Abbreviation handler := (describe_workflow_handler FormatRFC3339 Quote c).
Local Abbreviation workflow_id_of req := (mcp.Arguments (mcp.Params req) !! "workflow_id").
Local Abbreviation describe req wfID := (client.DescribeWorkflowExecution c wfID (run_id_of req)).

(** Lines 149-152: a missing, non-string or empty workflow id. *)
Lemma describe_workflow_invalid_argument req :
  (forall s, workflow_id_of req = Some (JString s) -> s = EmptyString) ->
  handler req
  = ([], (Some (mcp.NewToolResultError "Missing or invalid 'workflow_id' parameter"), None)).
Proof.
  intros H. unfold describe_workflow_handler.
  destruct (workflow_id_of req) as [[| | |s| |]|]; simpl; try reflexivity.
  now rewrite (H s eq_refl).
Qed.

Lemma describe_workflow_unfold req wfID :
  workflow_id_of req = Some (JString wfID) ->
  wfID <> EmptyString ->
  handler req
  = ([DescribeWorkflowExecutionCall wfID (run_id_of req)] ++
     match snd (describe req wfID) with
     | Some err =>
         [LogPrintf ("Error describing workflow " +:+ Quote wfID +:+ " (run "
                     +:+ Quote (run_id_of req) +:+ "): " +:+ Error err)]
     | None => []
     end,
     match snd (describe req wfID) with
     | Some err =>
         (Some (mcp.NewToolResultError ("Failed to describe workflow: " +:+ Error err)),
          None)
     | None =>
         match workflowservice.GetWorkflowExecutionInfo (fst (describe req wfID)) with
         | None =>
             (Some (mcp.NewToolResultError
                      "No information available for the specified workflow"), None)
         | Some detail => render_detail FormatRFC3339 (Some detail)
         end
     end)%list.
Proof.
  intros Hreq Hne. unfold describe_workflow_handler, run_id_of. rewrite Hreq. simpl.
  destruct (String.eqb_spec wfID EmptyString) as [|_]; [contradiction|].
  destruct (assert_string (mcp.Arguments (mcp.Params req) !! "run_id")) as [runID ok].
  unfold c_DescribeWorkflowExecution. simpl.
  destruct (client.DescribeWorkflowExecution c wfID runID) as [resp [err|]]; simpl;
    [reflexivity|].
  now destruct (workflowservice.GetWorkflowExecutionInfo resp).
Qed.

(** C6. For a non-empty workflow id: when the backend's describe call
    returns an error (such as its not-found error), the handler returns the
    error result [Failed to describe workflow: ...] with that error's
    message; when the call succeeds with an absent detail payload, it
    returns the error result [No information available for the specified
    workflow]. In both cases the Go error is nil and the result is not a
    success. *)
Theorem describe_workflow_not_found req wfID :
  workflow_id_of req = Some (JString wfID) ->
  wfID <> EmptyString ->
  (forall err, snd (describe req wfID) = Some err ->
     value (handler req)
     = (Some (mcp.NewToolResultError ("Failed to describe workflow: " +:+ Error err)),
        None))
  /\ (snd (describe req wfID) = None ->
      workflowservice.GetWorkflowExecutionInfo (fst (describe req wfID)) = None ->
      value (handler req)
      = (Some (mcp.NewToolResultError
                 "No information available for the specified workflow"), None)).
Proof.
  intros Hreq Hne. rewrite (describe_workflow_unfold req wfID Hreq Hne).
  split.
  - intros err ->. reflexivity.
  - intros -> ->. reflexivity.
Qed.

Lemma run_id_of_non_string req v :
  mcp.Arguments (mcp.Params req) !! "run_id" = Some v ->
  (forall s, v <> JString s) ->
  run_id_of req = EmptyString.
Proof.
  intros Hv Hns. unfold run_id_of. rewrite Hv.
  destruct v; try reflexivity. now destruct (Hns s).
Qed.

Lemma run_id_of_omitted req : run_id_of (without_run_id req) = EmptyString.
Proof. unfold run_id_of, without_run_id. simpl. now rewrite lookup_delete_eq. Qed.

Lemma workflow_id_of_omitted req :
  workflow_id_of (without_run_id req) = workflow_id_of req.
Proof. unfold without_run_id. simpl. now rewrite lookup_delete_ne. Qed.

(** C10. When the run_id argument is present but is not a string, the
    invocation behaves as when run_id is omitted: same events, same result.
    The run id handed to the backend is the empty string, for which the
    backend resolves the latest run; no error is returned on account of the
    run_id argument. *)
Theorem describe_workflow_non_string_run_id req v :
  mcp.Arguments (mcp.Params req) !! "run_id" = Some v ->
  (forall s, v <> JString s) ->
  handler req = handler (without_run_id req)
  /\ forall wfID,
       workflow_id_of req = Some (JString wfID) ->
       wfID <> EmptyString ->
       backend_calls (trace (handler req)) = [DescribeWorkflowExecutionCall wfID EmptyString].
Proof.
  intros Hv Hns. pose proof (run_id_of_non_string req v Hv Hns) as Hrun.
  pose proof (run_id_of_omitted req) as Hrun'.
  pose proof (workflow_id_of_omitted req) as Hwf.
  split.
  - destruct (workflow_id_of req) as [[| | |wfID| |]|] eqn:Hreq;
      try (rewrite !describe_workflow_invalid_argument; [reflexivity|..];
           intros s Hs; congruence).
    destruct (String.eqb_spec wfID EmptyString) as [He|Hne].
    + rewrite !describe_workflow_invalid_argument; [reflexivity|..];
        intros s Hs; congruence.
    + rewrite (describe_workflow_unfold req wfID Hreq Hne).
      rewrite (describe_workflow_unfold (without_run_id req) wfID) by congruence.
      now rewrite Hrun, Hrun'.
  - intros wfID Hreq Hne. rewrite (describe_workflow_unfold req wfID Hreq Hne), Hrun.
    simpl. now destruct (snd (client.DescribeWorkflowExecution c wfID EmptyString)).
Qed.

End DescribeWorkflow.

(** ** Failures at the boundary of the two handlers *)

Section Failures.

Context (mapUnicodeToLower : string -> string) (FormatRFC3339 : time.Time -> string)
        (Quote : string -> string) (temporalNamespace : string) (c : client.Client).

Local Abbreviation list_workflows :=
  (list_workflows_handler mapUnicodeToLower FormatRFC3339 temporalNamespace c).
Local Abbreviation describe_workflow := (describe_workflow_handler FormatRFC3339 Quote c).

(** Every path of list_workflows returns a result and a nil error. *)
Lemma list_workflows_returns req :
  exists r, value (list_workflows req) = (Some r, None).
Proof.
  destruct (mcp.Arguments (mcp.Params req) !! "status") as [v|] eqn:Hreq.
  2: { rewrite list_workflows_invalid_argument; [now eexists | congruence]. }
  destruct v as [| | |statusVal| |];
    try (rewrite list_workflows_invalid_argument; [now eexists | congruence]).
  destruct (classify mapUnicodeToLower statusVal) as [i|] eqn:Hc.
  - destruct (snd (answer_of temporalNamespace c i)) as [err|] eqn:Herr.
    + rewrite (list_workflows_query_failed _ _ _ _ req statusVal i err Hreq Hc Herr).
      now eexists.
    + rewrite (list_workflows_ok _ _ _ _ req statusVal i Hreq Hc Herr).
      rewrite render_executions_RenderList. now eexists.
  - destruct (list_workflows_refuses _ FormatRFC3339 temporalNamespace c req statusVal Hreq Hc)
      as [msg ->]. now eexists.
Qed.

(** Every path of describe_workflow returns a result and a nil error. *)
Lemma describe_workflow_returns req :
  exists r, value (describe_workflow req) = (Some r, None).
Proof.
  destruct (mcp.Arguments (mcp.Params req) !! "workflow_id") as [v|] eqn:Hreq.
  2: { rewrite describe_workflow_invalid_argument; [now eexists | congruence]. }
  destruct v as [| | |wfID| |];
    try (rewrite describe_workflow_invalid_argument; [now eexists | congruence]).
  destruct (String.eqb_spec wfID EmptyString) as [He|Hne].
  { rewrite describe_workflow_invalid_argument; [now eexists | congruence]. }
  rewrite (describe_workflow_unfold _ _ _ req wfID Hreq Hne). unfold value. simpl.
  destruct (snd (client.DescribeWorkflowExecution c wfID (run_id_of req)));
    [now eexists|].
  destruct (workflowservice.GetWorkflowExecutionInfo _); [|now eexists].
  unfold render_detail. now eexists.
Qed.

(** C5. Each of the two handlers returns, on every request and whatever
    the backend answers, a non-nil result together with a nil Go error, so
    that nothing escapes the handler. Whenever the invocation fails (invalid
    argument, unrecognized status, failed backend query, absent detail),
    that result is an error result carrying one non-empty text message. *)
Theorem handlers_turn_failures_into_error_results req :
  (exists r, value (list_workflows req) = (Some r, None))
  /\ (exists r, value (describe_workflow req) = (Some r, None))
  /\ (forall k, list_fails mapUnicodeToLower temporalNamespace c req k ->
        exists msg, msg <> EmptyString
          /\ value (list_workflows req) = (Some (mcp.NewToolResultError msg), None))
  /\ (forall k, describe_fails c req k ->
        exists msg, msg <> EmptyString
          /\ value (describe_workflow req) = (Some (mcp.NewToolResultError msg), None)).
Proof.
  split; [apply list_workflows_returns|].
  split; [apply describe_workflow_returns|].
  split.
  - intros k [Harg | statusVal Hreq Hne Hc | statusVal i err Hreq Hc Herr].
    + rewrite (list_workflows_invalid_argument _ _ _ _ req Harg).
      eexists. split; [|reflexivity]. discriminate.
    + rewrite (list_workflows_unsupported _ _ _ _ req statusVal Hreq Hne Hc).
      eexists. split; [|reflexivity]. rewrite append_cons. discriminate.
    + rewrite (list_workflows_query_failed _ _ _ _ req statusVal i err Hreq Hc Herr).
      eexists. split; [|reflexivity]. rewrite append_cons. discriminate.
  - intros k [Harg | wfID err Hreq Hne Herr | wfID Hreq Hne Herr Hinfo].
    + rewrite (describe_workflow_invalid_argument _ _ _ req Harg).
      eexists. split; [|reflexivity]. discriminate.
    + rewrite (describe_workflow_unfold _ _ _ req wfID Hreq Hne), Herr.
      eexists. split; [|reflexivity]. rewrite append_cons. discriminate.
    + rewrite (describe_workflow_unfold _ _ _ req wfID Hreq Hne), Herr, Hinfo.
      eexists. split; [|reflexivity]. discriminate.
Qed.

End Failures.

(** ** The sample backend and library functions *)

Lemma Sample_digit_not_LF n : is_LF (Sample.digit n) = false.
Proof.
  unfold Sample.digit. pose proof (Z.mod_pos_bound n 10 eq_refl) as Hb.
  assert (Hk : (Z.to_nat (n mod 10) < 10)%nat) by lia.
  destruct (Z.to_nat (n mod 10)) as [|k]; [reflexivity|].
  do 9 (destruct k as [|k]; [reflexivity|]). lia.
Qed.

Lemma Sample_pad2_no_LF n : contains_LF (Sample.pad2 n) = false.
Proof. unfold Sample.pad2. cbn [contains_LF]. now rewrite !Sample_digit_not_LF. Qed.

Lemma Sample_pad4_no_LF n : contains_LF (Sample.pad4 n) = false.
Proof.
  unfold Sample.pad4. cbn [contains_LF].
  now rewrite !Sample_digit_not_LF, Sample_pad2_no_LF.
Qed.

Lemma Sample_FormatRFC3339_no_LF t : contains_LF (Sample.FormatRFC3339 t) = false.
Proof.
  unfold Sample.FormatRFC3339. destruct (Sample.civil_from_days _) as [[y m] d].
  now rewrite !contains_LF_app, !Sample_pad2_no_LF, Sample_pad4_no_LF.
Qed.

Lemma Sample_FormatRFC3339_nonempty t : Sample.FormatRFC3339 t <> EmptyString.
Proof.
  unfold Sample.FormatRFC3339. destruct (Sample.civil_from_days _) as [[y m] d].
  unfold Sample.pad4. rewrite append_cons. discriminate.
Qed.

Lemma Sample_serve_honours_page_size v : honours_page_size (Sample.serve v).
Proof.
  split; intros r; simpl; rewrite length_map, length_take; lia.
Qed.

(** ** Small runs *)

Example workflowStatusToString_terminated :
  workflowStatusToString enumspb.WORKFLOW_EXECUTION_STATUS_TERMINATED = "Terminated".
Proof. reflexivity. Qed.

Example workflowStatusToString_other : workflowStatusToString 8%Z = "Unknown".
Proof. reflexivity. Qed.

Example ToLower_mixed_case : ToLower Sample.mapUnicodeToLower "FaiLed" = "failed".
Proof. reflexivity. Qed.

Example classify_upper_case : classify Sample.mapUnicodeToLower "COMPLETED" = Some Completed.
Proof. reflexivity. Qed.

Example classify_other : classify Sample.mapUnicodeToLower "canceled" = None.
Proof. reflexivity. Qed.

Example split_lines_two : split_lines ("a" +:+ LF +:+ "b" +:+ LF) = ["a"; "b"; EmptyString].
Proof. reflexivity. Qed.

Example list_running_one :
  result_text
    (value (Sample.list_workflows (Sample.serve Sample.store)
              (Sample.request "list_workflows" [("status", JString "RUNNING")])))
  = Some ("Found 1 running workflow(s):" +:+ LF
          +:+ "- ID: order-7 | Run: run-c | Type: OrderWorkflow | Status: Running"
          +:+ " | Start: 2023-11-14T22:18:20Z" +:+ LF).
Proof. vm_compute. reflexivity. Qed.

(** Without a run id the sample backend describes the most recent run. *)
Example describe_latest_run :
  Sample.describe_workflow (Sample.serve Sample.store)
    (Sample.request "describe_workflow" [("workflow_id", JString "order-5")])
  = ([DescribeWorkflowExecutionCall "order-5" EmptyString],
     (Some (mcp.NewToolResultText
              ("Workflow Execution Details:" +:+ LF
               +:+ "Workflow ID: order-5" +:+ LF
               +:+ "Run ID: run-b" +:+ LF
               +:+ "Type: OrderWorkflow" +:+ LF
               +:+ "Status: Terminated" +:+ LF
               +:+ "Start Time: 2023-11-14T22:15:00Z" +:+ LF
               +:+ "End Time: 2023-11-14T22:16:40Z" +:+ LF)), None)).
Proof. vm_compute. reflexivity. Qed.

(** The fields are written as they are: an identifier that holds a line
    feed spreads over two lines of the text, which is why the End Time line
    is looked for at the end of the block. *)
Example identifier_with_line_feed :
  let detail :=
    Sample.execution ("a" +:+ LF +:+ "End Time: b") "run-a" "OrderWorkflow"
      1700000000 None enumspb.WORKFLOW_EXECUTION_STATUS_RUNNING in
  has_end_time_line (RenderDetail Sample.FormatRFC3339 detail) = true
  /\ ends_with_end_time_line (RenderDetail Sample.FormatRFC3339 detail) = false.
Proof. split; vm_compute; reflexivity. Qed.

(** ** The claims on concrete invocations *)

(** C1. The closed-executions query carries no status: whatever the
    backend answers, the intents [Completed] and [Failed] obtain the same
    executions. On the invocation with status [completed] against a backend
    that holds one terminated and one completed closed execution, and that
    honours a status filter when it is given one, the single query has no
    status filter and the successful text lists the terminated execution
    next to the completed one. *)
Theorem list_completed_returns_other_closed_executions :
  (forall temporalNamespace c executions,
     value (list_executions temporalNamespace c "completed" "completed") = inr executions
     <-> value (list_executions temporalNamespace c "failed" "failed") = inr executions)
  /\ let run := Sample.list_workflows (Sample.serve Sample.store)
                  (Sample.request "list_workflows" [("status", JString "completed")]) in
     (exists r, trace run = [ListClosedWorkflowCall r]
                /\ workflowservice.GetStatusFilter r = None)
     /\ result_text (value run)
        = Some ("Found 2 completed workflow(s):" +:+ LF
                +:+ "- ID: order-5 | Run: run-b | Type: OrderWorkflow | Status: Terminated"
                +:+ " | Start: 2023-11-14T22:15:00Z | End: 2023-11-14T22:16:40Z" +:+ LF
                +:+ "- ID: order-5 | Run: run-a | Type: OrderWorkflow | Status: Completed"
                +:+ " | Start: 2023-11-14T22:13:20Z | End: 2023-11-14T22:14:10Z" +:+ LF).
Proof.
  split; [|split].
  - intros ns c. apply completed_and_failed_share_the_query.
  - eexists. split; [vm_compute; reflexivity | reflexivity].
  - vm_compute. reflexivity.
Qed.

(** C2, as stated, fails: against a backend with no open execution the
    text returned for status [running] is not the sentence followed by a
    line feed. *)
Lemma list_running_empty_has_no_trailing_line_feed :
  workflowservice.open_GetExecutions
    (fst (client.ListOpenWorkflow (Sample.serve Sample.empty_store) (open_request "default")))
  = []
  /\ result_text
       (value (Sample.list_workflows (Sample.serve Sample.empty_store)
                 (Sample.request "list_workflows" [("status", JString "running")])))
     <> Some ("No running workflows found." +:+ LF).
Proof. split; [reflexivity | vm_compute; discriminate]. Qed.

Lemma list_running_empty_text_witness :
  Sample.list_workflows (Sample.serve Sample.empty_store)
    (Sample.request "list_workflows" [("status", JString "running")])
  = ([ListOpenWorkflowCall (open_request "default")],
     (Some (mcp.NewToolResultText "No running workflows found."), None)).
Proof.
  apply (list_running_empty_text Sample.mapUnicodeToLower Sample.FormatRFC3339
           "default" (Sample.serve Sample.empty_store)); reflexivity.
Defined.

Lemma list_workflows_rejects_other_status_witness :
  exists msg,
    Sample.list_workflows (Sample.serve Sample.store)
      (Sample.request "list_workflows" [("status", JString "Paused")])
    = ([], (Some (mcp.NewToolResultError msg), None)).
Proof.
  apply (list_workflows_rejects_other_status Sample.mapUnicodeToLower
           Sample.FormatRFC3339 "default" (Sample.serve Sample.store)).
  intros s Hs. vm_compute in Hs. injection Hs as <-.
  unfold is_status_keyword. vm_compute. intros [H|[H|H]]; discriminate H.
Defined.

Lemma classify_ToLower_invariant_witness :
  (forall s, strings.isASCII s = false ->
             ToLower Sample.mapUnicodeToLower (Sample.mapUnicodeToLower s)
             = Sample.mapUnicodeToLower s)
  /\ classify Sample.mapUnicodeToLower "RUNNING" = Some Running
  /\ classify Sample.mapUnicodeToLower (ToLower Sample.mapUnicodeToLower "RUNNING")
     = classify Sample.mapUnicodeToLower "RUNNING"
  /\ classify Sample.mapUnicodeToLower
       (ToLower Sample.mapUnicodeToLower (String "195" (String "137" "FAILED")))
     = classify Sample.mapUnicodeToLower (String "195" (String "137" "FAILED")).
Proof.
  split; [exact Sample_mapUnicodeToLower_lowered|].
  split; [reflexivity|].
  split.
  - exact (proj1 (proj2 (classify_ToLower_invariant Sample.mapUnicodeToLower
                           Sample.FormatRFC3339 "default" (Sample.serve Sample.store))
                    Sample_mapUnicodeToLower_lowered "RUNNING")).
  - exact (proj1 (proj2 (classify_ToLower_invariant Sample.mapUnicodeToLower
                           Sample.FormatRFC3339 "default" (Sample.serve Sample.store))
                    Sample_mapUnicodeToLower_lowered
                    (String "195" (String "137" "FAILED")))).
Defined.

Lemma handlers_turn_failures_into_error_results_witness :
  list_fails Sample.mapUnicodeToLower "default" Sample.unreachable
    (Sample.request "list_workflows" [("status", JString "failed")]) QueryFailed
  /\ exists msg, msg <> EmptyString
       /\ value (Sample.list_workflows Sample.unreachable
                   (Sample.request "list_workflows" [("status", JString "failed")]))
          = (Some (mcp.NewToolResultError msg), None).
Proof.
  assert (Hf : list_fails Sample.mapUnicodeToLower "default" Sample.unreachable
                 (Sample.request "list_workflows" [("status", JString "failed")])
                 QueryFailed).
  { apply (list_fails_query _ _ _ _ "failed" Failed
             (errorString "context deadline exceeded")); reflexivity. }
  split; [exact Hf|].
  exact (proj1 (proj2 (proj2 (handlers_turn_failures_into_error_results
                                Sample.mapUnicodeToLower Sample.FormatRFC3339 Sample.Quote
                                "default" Sample.unreachable _))) _ Hf).
Defined.

Lemma describe_workflow_not_found_witness :
  value (Sample.describe_workflow (Sample.serve Sample.store)
           (Sample.request "describe_workflow" [("workflow_id", JString "missing-id")]))
  = (Some (mcp.NewToolResultError
             "Failed to describe workflow: workflow execution not found"), None)
  /\ value (Sample.describe_workflow Sample.hollow
              (Sample.request "describe_workflow" [("workflow_id", JString "missing-id")]))
     = (Some (mcp.NewToolResultError
                "No information available for the specified workflow"), None).
Proof.
  split.
  - apply (proj1 (describe_workflow_not_found Sample.FormatRFC3339 Sample.Quote
                    (Sample.serve Sample.store)
                    (Sample.request "describe_workflow"
                       [("workflow_id", JString "missing-id")])
                    "missing-id" eq_refl ltac:(discriminate))
             (errorString "workflow execution not found")).
    reflexivity.
  - apply (proj2 (describe_workflow_not_found Sample.FormatRFC3339 Sample.Quote
                    Sample.hollow
                    (Sample.request "describe_workflow"
                       [("workflow_id", JString "missing-id")])
                    "missing-id" eq_refl ltac:(discriminate))); reflexivity.
Defined.

Lemma render_detail_end_time_iff_close_time_witness :
  ends_with_end_time_line
    (RenderDetail Sample.FormatRFC3339
       (Sample.execution "order-5" "run-a" "OrderWorkflow" 1700000000 (Some 1700000050%Z)
          enumspb.WORKFLOW_EXECUTION_STATUS_COMPLETED)) = true
  /\ ends_with_end_time_line
       (RenderDetail Sample.FormatRFC3339
          (Sample.execution "order-7" "run-c" "OrderWorkflow" 1700000300 None
             enumspb.WORKFLOW_EXECUTION_STATUS_RUNNING)) = false.
Proof.
  split.
  - exact (proj1 (proj2 (render_detail_end_time_iff_close_time Sample.FormatRFC3339
                           (Sample.execution "order-5" "run-a" "OrderWorkflow" 1700000000
                              (Some 1700000050%Z) enumspb.WORKFLOW_EXECUTION_STATUS_COMPLETED)
                           Sample_FormatRFC3339_nonempty Sample_FormatRFC3339_no_LF))).
  - exact (proj1 (proj2 (render_detail_end_time_iff_close_time Sample.FormatRFC3339
                           (Sample.execution "order-7" "run-c" "OrderWorkflow" 1700000300
                              None enumspb.WORKFLOW_EXECUTION_STATUS_RUNNING)
                           Sample_FormatRFC3339_nonempty Sample_FormatRFC3339_no_LF))).
Defined.

Lemma render_executions_in_input_order_witness :
  exists text,
    render_executions Sample.FormatRFC3339 "completed"
      (map Some (Sample.closedExecutions Sample.store))
    = (Some (mcp.NewToolResultText text), None)
    /\ text_lines text
       = [ "Found 2 completed workflow(s):";
           "- ID: order-5 | Run: run-b | Type: OrderWorkflow | Status: Terminated"
           +:+ " | Start: 2023-11-14T22:15:00Z | End: 2023-11-14T22:16:40Z";
           "- ID: order-5 | Run: run-a | Type: OrderWorkflow | Status: Completed"
           +:+ " | Start: 2023-11-14T22:13:20Z | End: 2023-11-14T22:14:10Z" ].
Proof.
  destruct (render_executions_in_input_order Sample.FormatRFC3339 "completed"
              (map Some (Sample.closedExecutions Sample.store)) ltac:(discriminate))
    as (text & Hr & _ & Hlines).
  exists text. split; [exact Hr|].
  rewrite (Hlines Sample_FormatRFC3339_no_LF eq_refl eq_refl). vm_compute. reflexivity.
Defined.

Lemma list_executions_single_query_of_100_witness :
  backend_calls
    (trace (Sample.list_workflows (Sample.serve Sample.store)
              (Sample.request "list_workflows" [("status", JString "Failed")])))
  = [ListClosedWorkflowCall (closed_request "default")]
  /\ page_size (ListClosedWorkflowCall (closed_request "default")) = Some 100%Z
  /\ page_token (ListClosedWorkflowCall (closed_request "default")) = Some EmptyString
  /\ forall executions,
       value (list_executions "default" (Sample.serve Sample.store) "Failed" "failed")
       = inr executions ->
       (List.length executions <= 100)%nat.
Proof.
  destruct (list_executions_single_query_of_100 Sample.mapUnicodeToLower
              Sample.FormatRFC3339 "default" (Sample.serve Sample.store)
              (Sample.request "list_workflows" [("status", JString "Failed")])
              "Failed" Failed eq_refl eq_refl)
    as (_ & Hcalls & Hsize & Htoken & Hbound).
  exact (conj Hcalls (conj Hsize (conj Htoken
           (Hbound (Sample_serve_honours_page_size Sample.store))))).
Defined.

Lemma describe_workflow_non_string_run_id_witness :
  Sample.describe_workflow (Sample.serve Sample.store)
    (Sample.request "describe_workflow"
       [("workflow_id", JString "order-5"); ("run_id", JNumber 3)])
  = Sample.describe_workflow (Sample.serve Sample.store)
      (without_run_id
         (Sample.request "describe_workflow"
            [("workflow_id", JString "order-5"); ("run_id", JNumber 3)])).
Proof.
  apply (proj1 (describe_workflow_non_string_run_id Sample.FormatRFC3339 Sample.Quote
                  (Sample.serve Sample.store)
                  (Sample.request "describe_workflow"
                     [("workflow_id", JString "order-5"); ("run_id", JNumber 3)])
                  (JNumber 3) eq_refl ltac:(discriminate))).
Defined.

(** * Further properties of the code *)

(** ** [workflowStatusToString] *)

(** X1. [workflowStatusToString] answers [Unknown] exactly for the values
    outside the seven named statuses 1 to 7: the unspecified status 0, a
    negative value, and any value from 8 on. *)
Theorem workflowStatusToString_unknown_iff status :
  workflowStatusToString status = "Unknown" <-> (status < 1 \/ 7 < status)%Z.
Proof.
  unfold workflowStatusToString,
    enumspb.WORKFLOW_EXECUTION_STATUS_RUNNING, enumspb.WORKFLOW_EXECUTION_STATUS_COMPLETED,
    enumspb.WORKFLOW_EXECUTION_STATUS_FAILED, enumspb.WORKFLOW_EXECUTION_STATUS_CANCELED,
    enumspb.WORKFLOW_EXECUTION_STATUS_TERMINATED,
    enumspb.WORKFLOW_EXECUTION_STATUS_CONTINUED_AS_NEW,
    enumspb.WORKFLOW_EXECUTION_STATUS_TIMED_OUT.
  repeat match goal with
         | |- context [ (status =? ?k)%Z ] =>
             destruct (Z.eqb_spec status k) as [->|?]; [split; [discriminate | lia]|]
         end.
  split; [lia | reflexivity].
Qed.

(** X2. On the seven named statuses [workflowStatusToString] is
    injective: two of them never share a name, so the printed status
    identifies the status. *)
Theorem workflowStatusToString_injective a b :
  (1 <= a <= 7)%Z -> (1 <= b <= 7)%Z ->
  workflowStatusToString a = workflowStatusToString b -> a = b.
Proof.
  intros Ha Hb.
  assert (Ea : (a = 1 \/ a = 2 \/ a = 3 \/ a = 4 \/ a = 5 \/ a = 6 \/ a = 7)%Z) by lia.
  assert (Eb : (b = 1 \/ b = 2 \/ b = 3 \/ b = 4 \/ b = 5 \/ b = 6 \/ b = 7)%Z) by lia.
  repeat (destruct Ea as [Ea|Ea]); repeat (destruct Eb as [Eb|Eb]); subst a b;
    intros H; try reflexivity; discriminate H.
Qed.

Lemma workflowStatusToString_injective_witness :
  workflowStatusToString enumspb.WORKFLOW_EXECUTION_STATUS_FAILED
  = workflowStatusToString 3%Z
  /\ enumspb.WORKFLOW_EXECUTION_STATUS_FAILED = 3%Z.
Proof.
  split; [reflexivity|].
  apply (workflowStatusToString_injective enumspb.WORKFLOW_EXECUTION_STATUS_FAILED 3%Z);
    [unfold enumspb.WORKFLOW_EXECUTION_STATUS_FAILED; lia | lia | reflexivity].
Defined.

(** X3. Whatever the status value, its name is a non-empty word of ASCII
    letters: it holds no space, no bar and no line feed, so it cannot break
    the fields of a list line or the lines of a detail block. *)
Theorem workflowStatusToString_letters status :
  workflowStatusToString status <> EmptyString
  /\ all_letters (workflowStatusToString status) = true
  /\ contains_LF (workflowStatusToString status) = false.
Proof.
  unfold workflowStatusToString.
  repeat match goal with |- context [ if ?b then _ else _ ] => destruct b end;
    (split; [discriminate | split; reflexivity]).
Qed.

(** ** The status keyword *)

Lemma mapBytes_lower_no_upper s :
  strings.hasUpper s = false -> strings.mapBytes strings.lowerByte s = s.
Proof.
  induction s as [|ch s IH]; simpl; [reflexivity|].
  intros [Hc Hs]%orb_false_elim. unfold strings.lowerByte at 1. now rewrite Hc, (IH Hs).
Qed.

Lemma ToLower_ascii f s :
  strings.isASCII s = true -> strings.ToLower f s = strings.mapBytes strings.lowerByte s.
Proof.
  intros Hs. unfold strings.ToLower. rewrite Hs.
  destruct (strings.hasUpper s) eqn:Hu; [reflexivity|].
  now rewrite mapBytes_lower_no_upper.
Qed.

Lemma length_mapBytes f s : String.length (strings.mapBytes f s) = String.length s.
Proof. induction s as [|ch s IH]; simpl; [reflexivity | now rewrite IH]. Qed.

(** X4. An ASCII status string is classified to an intent exactly when it
    is the intent's keyword up to the case of its letters. Nothing is
    trimmed: an accepted ASCII string has the length of its keyword, so a
    keyword with a space or a line feed around it is rejected. *)
Theorem classify_ascii_iff mapUnicodeToLower statusVal i :
  strings.isASCII statusVal = true ->
  (classify mapUnicodeToLower statusVal = Some i
   <-> equal_fold_ascii statusVal (status_label i) = true)
  /\ (classify mapUnicodeToLower statusVal = Some i ->
      String.length statusVal = String.length (status_label i)).
Proof.
  intros Hs.
  assert (Hl : strings.mapBytes strings.lowerByte (status_label i) = status_label i)
    by now destruct i.
  assert (Hiff : classify mapUnicodeToLower statusVal = Some i
                 <-> strings.mapBytes strings.lowerByte statusVal = status_label i).
  { rewrite <- (ToLower_ascii mapUnicodeToLower statusVal Hs). split.
    - apply classify_Some.
    - apply classify_label. }
  split.
  - unfold equal_fold_ascii. rewrite Hl, String.eqb_eq. exact Hiff.
  - intros Hc. apply Hiff in Hc.
    now rewrite <- (length_mapBytes strings.lowerByte statusVal), Hc.
Qed.

Lemma classify_ascii_iff_witness :
  classify Sample.mapUnicodeToLower "Running" = Some Running
  /\ classify Sample.mapUnicodeToLower " running" <> Some Running.
Proof.
  split.
  - apply (proj1 (classify_ascii_iff Sample.mapUnicodeToLower "Running" Running eq_refl)).
    reflexivity.
  - intros H.
    apply (proj1 (proj1 (classify_ascii_iff Sample.mapUnicodeToLower " running" Running
                           eq_refl))) in H.
    discriminate H.
Defined.

(** ** More on the list_workflows handler *)

Section ListWorkflowsMore.

Context (mapUnicodeToLower : string -> string) (FormatRFC3339 : time.Time -> string)
        (temporalNamespace : string) (c : client.Client).

Local Abbreviation classify_ := (classify mapUnicodeToLower).
Local Abbreviation handler :=
  (list_workflows_handler mapUnicodeToLower FormatRFC3339 temporalNamespace c).
Local Abbreviation query := (query_of temporalNamespace).
Local Abbreviation answer := (answer_of temporalNamespace c).
Local Abbreviation status_of req := (mcp.Arguments (mcp.Params req) !! "status").

(** The four ways through the handler. *)
Lemma list_workflows_paths req :
  (exists msg, handler req = ([], (Some (mcp.NewToolResultError msg), None)))
  \/ (exists statusVal i err,
        status_of req = Some (JString statusVal) /\ classify_ statusVal = Some i
        /\ snd (answer i) = Some err
        /\ handler req
           = ([query i;
               LogPrintf ("Error listing " +:+ status_label i +:+ " workflows: "
                          +:+ Error err)],
              (Some (mcp.NewToolResultError
                       ("Failed to list " +:+ status_label i +:+ " workflows: "
                        +:+ Error err)), None)))
  \/ (exists statusVal i,
        status_of req = Some (JString statusVal) /\ classify_ statusVal = Some i
        /\ snd (answer i) = None
        /\ handler req
           = ([query i],
              (Some (mcp.NewToolResultText
                       (RenderList FormatRFC3339 (status_label i) (fst (answer i)))),
               None))).
Proof.
  destruct (status_of req) as [v|] eqn:Hreq.
  2: { left. eexists. apply list_workflows_invalid_argument. congruence. }
  destruct v as [| | |statusVal| |];
    try (left; eexists; apply list_workflows_invalid_argument; congruence).
  destruct (classify_ statusVal) as [i|] eqn:Hc.
  - destruct (snd (answer i)) as [err|] eqn:Herr.
    + right. left. exists statusVal, i, err. repeat split; try assumption.
      now apply list_workflows_query_failed with (statusVal := statusVal).
    + right. right. exists statusVal, i. repeat split; try assumption.
      rewrite (list_workflows_ok _ _ _ _ req statusVal i Hreq Hc Herr).
      now rewrite render_executions_RenderList.
  - left. now apply (list_workflows_refuses _ _ _ _ req statusVal).
Qed.



(** X8. Once the query has come back without error, the handler answers
    with the sentence [No ... workflows found.] exactly when there is no
    execution to show; a nil response counts as none. *)
Theorem list_workflows_empty_iff req statusVal i :
  status_of req = Some (JString statusVal) ->
  classify_ statusVal = Some i ->
  snd (answer i) = None ->
  (fst (answer i) = []
   <-> result_text (value (handler req))
       = Some ("No " +:+ status_label i +:+ " workflows found."))
  /\ (match i with
      | Running =>
          fst (client.ListOpenWorkflow c (open_request temporalNamespace)) = None
      | _ =>
          fst (client.ListClosedWorkflow c (closed_request temporalNamespace)) = None
      end -> fst (answer i) = []).
Proof.
  intros Hreq Hc Herr.
  rewrite (list_workflows_ok _ _ _ _ req statusVal i Hreq Hc Herr),
          render_executions_RenderList.
  split.
  - unfold value, result_text, RenderList. simpl.
    destruct (fst (answer i)) as [|info executions].
    + split; reflexivity.
    + split; [discriminate|]. unfold list_header. rewrite !append_cons. discriminate.
  - destruct i; simpl; intros ->; reflexivity.
Qed.

End ListWorkflowsMore.

Lemma list_workflows_empty_iff_witness :
  result_text
    (value (Sample.list_workflows Sample.hollow
              (Sample.request "list_workflows" [("status", JString "FAILED")])))
  = Some "No failed workflows found.".
Proof.
  destruct (list_workflows_empty_iff Sample.mapUnicodeToLower Sample.FormatRFC3339
              "default" Sample.hollow
              (Sample.request "list_workflows" [("status", JString "FAILED")])
              "FAILED" Failed eq_refl eq_refl eq_refl) as [Hiff Hnil].
  apply Hiff, Hnil. reflexivity.
Defined.

(** ** Missing timestamps *)

(** X10. An execution without start time is shown differently by the two
    handlers: a list line prints the formatted Unix epoch (the nil-safe
    getters give zero seconds and nanoseconds to the formatter), whereas
    the detail block leaves the value after [Start Time:] empty. *)
Theorem nil_start_time_rendering FormatRFC3339 b info detail :
  workflowpb.GetStartTime info = None ->
  workflowpb.StartTime detail = None ->
  list_loop_body FormatRFC3339 b info
  = b +:+ "- ID: " +:+ commonpb.GetWorkflowId (workflowpb.GetExecution info)
      +:+ " | Run: " +:+ commonpb.GetRunId (workflowpb.GetExecution info)
      +:+ " | Type: " +:+ commonpb.GetName (workflowpb.GetType info)
      +:+ " | Status: " +:+ workflowStatusToString (workflowpb.GetStatus info)
      +:+ " | Start: " +:+ FormatRFC3339 (time.Unix 0 0)
      +:+ match workflowpb.GetCloseTime info with
          | Some t => " | End: " +:+ FormatRFC3339 (AsTime (Some t))
          | None => EmptyString
          end +:+ LF
  /\ exists rest,
       result_text (render_detail FormatRFC3339 (Some detail))
       = Some ("Workflow Execution Details:" +:+ LF
               +:+ "Workflow ID: " +:+ commonpb.GetWorkflowId (workflowpb.Execution detail)
               +:+ LF
               +:+ "Run ID: " +:+ commonpb.GetRunId (workflowpb.Execution detail) +:+ LF
               +:+ "Type: " +:+ commonpb.GetName (workflowpb.Type_ detail) +:+ LF
               +:+ "Status: " +:+ workflowStatusToString (workflowpb.Status detail) +:+ LF
               +:+ "Start Time: " +:+ LF +:+ rest)
       /\ (rest = EmptyString \/ String.prefix "End Time: " rest = true).
Proof.
  intros Hinfo Hdetail. split.
  - rewrite list_loop_body_line. unfold summary_line, summary_body, AsTime.
    rewrite Hinfo. simpl. now rewrite !append_assoc.
  - unfold render_detail, result_text, strings.WriteString. simpl. rewrite Hdetail.
    destruct (workflowpb.CloseTime detail) as [t|]; simpl.
    + destruct (FormatRFC3339 (AsTime (Some t)) =? EmptyString)%string; simpl.
      * exists EmptyString. split; [|now left].
        now rewrite ?append_nil_l, ?append_nil_r, !append_assoc.
      * eexists. split; [|right; apply prefix_app].
        rewrite ?append_nil_l, !append_assoc. reflexivity.
    + exists EmptyString. split; [|now left].
      now rewrite ?append_nil_l, ?append_nil_r, !append_assoc.
Qed.

Lemma nil_start_time_rendering_witness :
  list_loop_body Sample.FormatRFC3339 EmptyString None
  = "- ID:  | Run:  | Type:  | Status: Unknown | Start: 1970-01-01T00:00:00Z" +:+ LF.
Proof.
  rewrite (proj1 (nil_start_time_rendering Sample.FormatRFC3339 EmptyString None
                    {| workflowpb.Execution := None; workflowpb.Type_ := None;
                       workflowpb.StartTime := None; workflowpb.CloseTime := None;
                       workflowpb.Status := 0%Z |} eq_refl eq_refl)).
  vm_compute. reflexivity.
Defined.

(** ** More on the describe_workflow handler *)

Section DescribeWorkflowMore.

Context (FormatRFC3339 : time.Time -> string) (Quote : string -> string)
        (c : client.Client).

Local Abbreviation handler := (describe_workflow_handler FormatRFC3339 Quote c).
Local Abbreviation workflow_id_of req := (mcp.Arguments (mcp.Params req) !! "workflow_id").
Local Abbreviation describe req wfID := (client.DescribeWorkflowExecution c wfID (run_id_of req)).

(** The workflow id that passes the check of lines 149-152, if any. *)
Lemma workflow_id_cases req :
  (forall s, workflow_id_of req = Some (JString s) -> s = EmptyString)
  \/ exists wfID, workflow_id_of req = Some (JString wfID) /\ wfID <> EmptyString.
Proof.
  destruct (workflow_id_of req) as [[| | |wfID| |]|]; try (left; congruence).
  destruct (String.eqb_spec wfID EmptyString) as [->|Hne].
  - left. congruence.
  - right. now exists wfID.
Qed.


(** X12. The effects of describe_workflow. With a non-empty workflow id
    the backend is called exactly once, with that id and with the run id
    exactly as given when it is a string; a log line follows exactly when
    the call returns an error. Without such an id nothing is called and
    nothing is logged. *)
Theorem describe_workflow_trace_shape req :
  (forall runID, mcp.Arguments (mcp.Params req) !! "run_id" = Some (JString runID) ->
                 run_id_of req = runID)
  /\ ((forall s, workflow_id_of req = Some (JString s) -> s = EmptyString) ->
      trace (handler req) = [])
  /\ (forall wfID,
        workflow_id_of req = Some (JString wfID) -> wfID <> EmptyString ->
        backend_calls (trace (handler req))
        = [DescribeWorkflowExecutionCall wfID (run_id_of req)]
        /\ trace (handler req)
           = (backend_calls (trace (handler req))
              ++ List.filter is_log (trace (handler req)))%list
        /\ (List.length (List.filter is_log (trace (handler req))) <= 1)%nat
        /\ (List.filter is_log (trace (handler req)) = []
            <-> snd (describe req wfID) = None)).
Proof.
  split; [|split].
  - intros runID H. unfold run_id_of. now rewrite H.
  - intros Hbad. now rewrite (describe_workflow_invalid_argument _ _ _ req Hbad).
  - intros wfID Hreq Hne. rewrite (describe_workflow_unfold _ _ _ req wfID Hreq Hne).
    unfold backend_calls, trace. simpl.
    destruct (snd (describe req wfID)) as [err|]; simpl; repeat split; auto; discriminate.
Qed.

Lemma dom_describe_properties :
  dom (tool.Properties (tool.InputSchema describeWorkflowTool))
  = ({["workflow_id"; "run_id"]} : gset string).
Proof.
  unfold describeWorkflowTool, tool.NewTool. simpl.
  rewrite !dom_insert_L, dom_empty_L. set_solver.
Qed.

(** X13. describe_workflow reads nothing but the arguments that its tool
    definition declares, workflow_id and run_id: two requests that agree on
    the declared properties (whatever their tool name and other arguments)
    have the same effects and the same result. *)
Theorem describe_workflow_reads_declared_arguments req req' :
  (forall k, k ∈ dom (tool.Properties (tool.InputSchema describeWorkflowTool)) ->
             mcp.Arguments (mcp.Params req) !! k = mcp.Arguments (mcp.Params req') !! k) ->
  handler req = handler req'.
Proof.
  intros H. rewrite dom_describe_properties in H.
  unfold describe_workflow_handler.
  rewrite (H "workflow_id") by set_solver. rewrite (H "run_id") by set_solver.
  reflexivity.
Qed.

End DescribeWorkflowMore.

Lemma describe_workflow_trace_shape_witness :
  backend_calls
    (trace (Sample.describe_workflow (Sample.serve Sample.store)
              (Sample.request "describe_workflow"
                 [("workflow_id", JString "order-5"); ("run_id", JString "run-a")])))
  = [DescribeWorkflowExecutionCall "order-5" "run-a"].
Proof.
  destruct (describe_workflow_trace_shape Sample.FormatRFC3339 Sample.Quote
              (Sample.serve Sample.store)
              (Sample.request "describe_workflow"
                 [("workflow_id", JString "order-5"); ("run_id", JString "run-a")]))
    as (Hrun & _ & Hcall).
  destruct (Hcall "order-5" eq_refl ltac:(discriminate)) as [Hcalls _].
  unfold Sample.describe_workflow. rewrite Hcalls.
  now rewrite (Hrun "run-a" eq_refl).
Defined.

Lemma describe_workflow_reads_declared_arguments_witness :
  Sample.describe_workflow (Sample.serve Sample.store)
    (Sample.request "describe_workflow"
       [("workflow_id", JString "order-5"); ("verbose", JBool true)])
  = Sample.describe_workflow (Sample.serve Sample.store)
      (Sample.request "any" [("workflow_id", JString "order-5")]).
Proof.
  apply (describe_workflow_reads_declared_arguments Sample.FormatRFC3339 Sample.Quote
           (Sample.serve Sample.store)).
  intros k Hk. rewrite dom_describe_properties in Hk.
  assert (Ek : k = "workflow_id" \/ k = "run_id") by set_solver.
  destruct Ek as [->| ->]; reflexivity.
Defined.

(** ** Tool definitions and handlers *)

Lemma dom_list_properties :
  dom (tool.Properties (tool.InputSchema listWorkflowsTool)) = ({["status"]} : gset string).
Proof.
  unfold listWorkflowsTool, tool.NewTool. simpl.
  rewrite !dom_insert_L, dom_empty_L. set_solver.
Qed.

(** X7. list_workflows reads nothing but the argument that its tool
    definition declares, status: two requests that agree on the declared
    property (whatever their tool name and other arguments) have the same
    effects and the same result. *)
Theorem list_workflows_reads_declared_arguments
    mapUnicodeToLower FormatRFC3339 temporalNamespace c req req' :
  (forall k, k ∈ dom (tool.Properties (tool.InputSchema listWorkflowsTool)) ->
             mcp.Arguments (mcp.Params req) !! k = mcp.Arguments (mcp.Params req') !! k) ->
  list_workflows_handler mapUnicodeToLower FormatRFC3339 temporalNamespace c req
  = list_workflows_handler mapUnicodeToLower FormatRFC3339 temporalNamespace c req'.
Proof.
  intros H. rewrite dom_list_properties in H.
  unfold list_workflows_handler. rewrite (H "status") by set_solver. reflexivity.
Qed.

Lemma list_workflows_reads_declared_arguments_witness :
  Sample.list_workflows (Sample.serve Sample.store)
    (Sample.request "list_workflows" [("status", JString "running"); ("limit", JNull)])
  = Sample.list_workflows (Sample.serve Sample.store)
      (Sample.request "any" [("status", JString "running")]).
Proof.
  apply (list_workflows_reads_declared_arguments Sample.mapUnicodeToLower
           Sample.FormatRFC3339 "default" (Sample.serve Sample.store)).
  intros k Hk. rewrite dom_list_properties in Hk.
  assert (Ek : k = "status") by set_solver. now subst k.
Defined.

(** X14. What the tool definitions mark as required the handlers enforce
    themselves: a request that lacks a required property (status for
    list_workflows, workflow_id for describe_workflow) gets an error result
    before any call on the backend. The property run_id of describe_workflow
    is declared but not required. *)
Theorem required_arguments_are_enforced
    mapUnicodeToLower FormatRFC3339 Quote temporalNamespace c req :
  (forall k, In k (tool.RequiredProperties (tool.InputSchema listWorkflowsTool)) ->
             mcp.Arguments (mcp.Params req) !! k = None ->
             exists msg,
               list_workflows_handler mapUnicodeToLower FormatRFC3339 temporalNamespace c req
               = ([], (Some (mcp.NewToolResultError msg), None)))
  /\ (forall k, In k (tool.RequiredProperties (tool.InputSchema describeWorkflowTool)) ->
                mcp.Arguments (mcp.Params req) !! k = None ->
                exists msg,
                  describe_workflow_handler FormatRFC3339 Quote c req
                  = ([], (Some (mcp.NewToolResultError msg), None)))
  /\ "run_id" ∈ dom (tool.Properties (tool.InputSchema describeWorkflowTool))
  /\ ~ In "run_id" (tool.RequiredProperties (tool.InputSchema describeWorkflowTool)).
Proof.
  split; [|split; [|split]].
  - intros k [<-|[]] Hk. eexists. apply list_workflows_invalid_argument. congruence.
  - intros k [<-|[]] Hk. eexists. apply describe_workflow_invalid_argument. congruence.
  - rewrite dom_describe_properties. set_solver.
  - intros [H|[]]. discriminate H.
Qed.

Lemma required_arguments_are_enforced_witness :
  exists msg,
    Sample.describe_workflow (Sample.serve Sample.store)
      (Sample.request "describe_workflow" [("run_id", JString "run-a")])
    = ([], (Some (mcp.NewToolResultError msg), None)).
Proof.
  apply (proj1 (proj2 (required_arguments_are_enforced Sample.mapUnicodeToLower
                         Sample.FormatRFC3339 Sample.Quote "default"
                         (Sample.serve Sample.store)
                         (Sample.request "describe_workflow"
                            [("run_id", JString "run-a")])))
           "workflow_id"); [now left | reflexivity].
Defined.

(** ** Start-up *)

Section MainProperties.

Context (mapUnicodeToLower : string -> string) (FormatRFC3339 : time.Time -> string)
        (Quote : string -> string).

Local Abbreviation main_ := (main mapUnicodeToLower FormatRFC3339 Quote).

(** The two outcomes of dialing, and what [main] does after each. *)
Lemma main_dial_failed w err :
  Dial w (configured_address w) (configured_namespace w) = inl err ->
  main_ w
  = ([ SetFlags 51;
       DialCall (configured_address w) (configured_namespace w);
       Fatalf ("Unable to connect to Temporal at " +:+ configured_address w
               +:+ " (namespace " +:+ configured_namespace w +:+ "): " +:+ Error err) ],
     1%Z).
Proof.
  intros H. unfold main. cbv zeta. fold (configured_address w) (configured_namespace w).
  now rewrite H.
Qed.

Lemma main_dial_ok w c :
  Dial w (configured_address w) (configured_namespace w) = inr c ->
  let mcpServer :=
    server.AddTool
      (server.AddTool (server.NewMCPServer "temporal-mcp" "1.0.0") listWorkflowsTool
         (list_workflows_handler mapUnicodeToLower FormatRFC3339 (configured_namespace w) c))
      describeWorkflowTool (describe_workflow_handler FormatRFC3339 Quote c) in
  main_ w
  = ([ SetFlags 51;
       DialCall (configured_address w) (configured_namespace w);
       Printf ("Connected to Temporal at " +:+ configured_address w
               +:+ " (namespace: " +:+ configured_namespace w +:+ ")");
       Println "Starting temporal-mcp server...";
       ServeStdioCall mcpServer;
       match ServeStdio w mcpServer with
       | Some err => Fatalf ("MCP server error: " +:+ Error err)
       | None => CloseCall
       end ],
     match ServeStdio w mcpServer with
     | Some _ => 1%Z
     | None => 0%Z
     end).
Proof.
  intros H mcpServer. unfold main. cbv zeta.
  fold (configured_address w) (configured_namespace w). rewrite H.
  fold mcpServer. now destruct (ServeStdio w mcpServer).
Qed.

(** X15. [main] dials exactly once, the address and namespace taken from
    TEMPORAL_ADDRESS and TEMPORAL_NAMESPACE; a variable that is not set, or
    set to the empty string, is replaced by [localhost:7233], respectively
    [default], so that neither is ever empty. *)
Theorem main_dials_configured_backend w :
  List.filter is_dial (fst (main_ w))
  = [DialCall (configured_address w) (configured_namespace w)]
  /\ configured_address w <> EmptyString
  /\ configured_namespace w <> EmptyString
  /\ (forall v, environ w !! "TEMPORAL_ADDRESS" = Some v -> v <> EmptyString ->
                configured_address w = v)
  /\ (forall v, environ w !! "TEMPORAL_NAMESPACE" = Some v -> v <> EmptyString ->
                configured_namespace w = v)
  /\ (environ w !! "TEMPORAL_ADDRESS" = None
      \/ environ w !! "TEMPORAL_ADDRESS" = Some EmptyString ->
      configured_address w = "localhost:7233")
  /\ (environ w !! "TEMPORAL_NAMESPACE" = None
      \/ environ w !! "TEMPORAL_NAMESPACE" = Some EmptyString ->
      configured_namespace w = "default").
Proof.
  split.
  { destruct (Dial w (configured_address w) (configured_namespace w)) as [err|c] eqn:Hd.
    - now rewrite (main_dial_failed w err Hd).
    - rewrite (main_dial_ok w c Hd). simpl.
      now destruct (ServeStdio w _). }
  unfold configured_address, configured_namespace, Getenv.
  repeat split.
  - destruct (String.eqb_spec (default EmptyString (environ w !! "TEMPORAL_ADDRESS"))
                EmptyString); [discriminate | assumption].
  - destruct (String.eqb_spec (default EmptyString (environ w !! "TEMPORAL_NAMESPACE"))
                EmptyString); [discriminate | assumption].
  - intros v -> Hv. simpl. now destruct (String.eqb_spec v EmptyString).
  - intros v -> Hv. simpl. now destruct (String.eqb_spec v EmptyString).
  - intros [-> | ->]; reflexivity.
  - intros [-> | ->]; reflexivity.
Qed.


(** X17. When dialing succeeds, the server that [main] serves is named
    temporal-mcp and holds exactly two tools, list_workflows and
    describe_workflow, each with its definition and with its handler bound
    to the dialed client, the list handler moreover to the configured
    namespace. When dialing fails no server is served. *)
Theorem main_registers_both_tools w :
  match Dial w (configured_address w) (configured_namespace w) with
  | inl _ => served (fst (main_ w)) = None
  | inr c =>
      exists s,
        served (fst (main_ w)) = Some s
        /\ server.name s = "temporal-mcp"
        /\ dom (server.tools s) = ({["list_workflows"; "describe_workflow"]} : gset string)
        /\ registered s "list_workflows" = Some listWorkflowsTool
        /\ registered s "describe_workflow" = Some describeWorkflowTool
        /\ handler_of s "list_workflows"
           = Some (list_workflows_handler mapUnicodeToLower FormatRFC3339
                     (configured_namespace w) c)
        /\ handler_of s "describe_workflow"
           = Some (describe_workflow_handler FormatRFC3339 Quote c)
  end.
Proof.
  destruct (Dial w (configured_address w) (configured_namespace w)) as [err|c] eqn:Hd.
  - now rewrite (main_dial_failed w err Hd).
  - rewrite (main_dial_ok w c Hd). cbv zeta. eexists.
    split; [reflexivity|]. split; [reflexivity|]. split.
    { unfold server.AddTool, server.NewMCPServer. simpl.
      rewrite !dom_insert_L, dom_empty_L. set_solver. }
    unfold registered, handler_of, server.AddTool, server.NewMCPServer. simpl.
    repeat split.
Qed.

(** X18. Every list query that a served list_workflows handler sends to
    the backend names the configured namespace, the one that was dialed,
    and this namespace is not empty. *)
Theorem served_queries_use_configured_namespace w s h req e ns :
  served (fst (main_ w)) = Some s ->
  handler_of s "list_workflows" = Some h ->
  In e (trace (h req)) ->
  query_namespace e = Some ns ->
  ns = configured_namespace w /\ ns <> EmptyString
  /\ In (DialCall (configured_address w) ns) (fst (main_ w)).
Proof.
  intros Hs Hh He Hns.
  assert (Hne : configured_namespace w <> EmptyString).
  { unfold configured_namespace.
    destruct (String.eqb_spec (Getenv w "TEMPORAL_NAMESPACE") EmptyString);
      [discriminate | assumption]. }
  destruct (Dial w (configured_address w) (configured_namespace w)) as [err|c] eqn:Hd.
  { rewrite (main_dial_failed w err Hd) in Hs. discriminate Hs. }
  rewrite (main_dial_ok w c Hd) in Hs |- *. cbv zeta in Hs |- *.
  unfold served in Hs. simpl in Hs. injection Hs as <-.
  match type of Hh with
  | handler_of ?srv _ = _ =>
      assert (Hk : handler_of srv "list_workflows"
                   = Some (list_workflows_handler mapUnicodeToLower FormatRFC3339
                             (configured_namespace w) c)) by reflexivity
  end.
  rewrite Hk in Hh. injection Hh as <-.
  assert (ns = configured_namespace w) as ->.
  { destruct (list_workflows_paths mapUnicodeToLower FormatRFC3339
                (configured_namespace w) c req)
      as [[msg H]|[(sv & i & err & _ & _ & _ & H)|(sv & i & _ & _ & _ & H)]];
      rewrite H in He; unfold trace in He; simpl in He.
    - contradiction.
    - destruct He as [<-|[<-|[]]]; [|discriminate Hns].
      destruct i; simpl in Hns; now injection Hns as <-.
    - destruct He as [<-|[]]. destruct i; simpl in Hns; now injection Hns as <-. }
  split; [reflexivity|]. split; [exact Hne|]. simpl. auto.
Qed.

End MainProperties.

Lemma served_queries_use_configured_namespace_witness :
  "orders" = configured_namespace SampleWorld.reachable
  /\ "orders" <> EmptyString
  /\ In (DialCall (configured_address SampleWorld.reachable) "orders")
        (fst (SampleWorld.main SampleWorld.reachable)).
Proof.
  eapply (served_queries_use_configured_namespace Sample.mapUnicodeToLower
            Sample.FormatRFC3339 Sample.Quote SampleWorld.reachable _ _
            (Sample.request "list_workflows" [("status", JString "running")])
            (ListOpenWorkflowCall (open_request "orders")) "orders").
  - reflexivity.
  - reflexivity.
  - left. reflexivity.
  - reflexivity.
Defined.

(** ** The error texts *)

(** X9. The error results of list_workflows have exactly three texts: the
    fixed sentence for a missing, non-string or empty status; the sentence
    for an unsupported status, which quotes the argument as it was given,
    not lowered; and the sentence for a failed query, which names the
    lowered keyword and carries the backend's error message. *)
Theorem list_workflows_error_texts
    mapUnicodeToLower FormatRFC3339 temporalNamespace c req r :
  value (list_workflows_handler mapUnicodeToLower FormatRFC3339 temporalNamespace c req)
  = (Some r, None) ->
  mcp.IsError r = true ->
  r = mcp.NewToolResultError "Missing or invalid 'status' parameter"
  \/ (exists statusVal,
        mcp.Arguments (mcp.Params req) !! "status" = Some (JString statusVal)
        /\ r = mcp.NewToolResultError
                 ("Unsupported status '" +:+ statusVal
                  +:+ "' (use running, completed, or failed)"))
  \/ (exists i err,
        snd (answer_of temporalNamespace c i) = Some err
        /\ r = mcp.NewToolResultError
                 ("Failed to list " +:+ status_label i +:+ " workflows: " +:+ Error err)).
Proof.
  destruct (mcp.Arguments (mcp.Params req) !! "status") as [v|] eqn:Hreq.
  2: { rewrite list_workflows_invalid_argument by congruence.
       intros [= <-] _. now left. }
  destruct v as [| | |statusVal| |];
    try (rewrite list_workflows_invalid_argument by congruence;
         intros [= <-] _; now left).
  destruct (String.eqb_spec statusVal EmptyString) as [He|Hne].
  { rewrite list_workflows_invalid_argument by congruence. intros [= <-] _. now left. }
  destruct (classify mapUnicodeToLower statusVal) as [i|] eqn:Hc.
  - destruct (snd (answer_of temporalNamespace c i)) as [err|] eqn:Herr.
    + rewrite (list_workflows_query_failed _ _ _ _ req statusVal i err Hreq Hc Herr).
      intros [= <-] _. right. right. now exists i, err.
    + rewrite (list_workflows_ok _ _ _ _ req statusVal i Hreq Hc Herr),
              render_executions_RenderList.
      intros [= <-]. discriminate.
  - rewrite (list_workflows_unsupported _ _ _ _ req statusVal Hreq Hne Hc).
    intros [= <-] _. right. left. now exists statusVal.
Qed.

Lemma list_workflows_error_texts_witness :
  mcp.NewToolResultError "Unsupported status 'Paused' (use running, completed, or failed)"
  = mcp.NewToolResultError "Missing or invalid 'status' parameter"
  \/ (exists statusVal,
        mcp.Arguments
          (mcp.Params (Sample.request "list_workflows" [("status", JString "Paused")]))
        !! "status" = Some (JString statusVal)
        /\ mcp.NewToolResultError
             "Unsupported status 'Paused' (use running, completed, or failed)"
           = mcp.NewToolResultError
               ("Unsupported status '" +:+ statusVal
                +:+ "' (use running, completed, or failed)"))
  \/ (exists i err,
        snd (answer_of "default" (Sample.serve Sample.store) i) = Some err
        /\ mcp.NewToolResultError
             "Unsupported status 'Paused' (use running, completed, or failed)"
           = mcp.NewToolResultError
               ("Failed to list " +:+ status_label i +:+ " workflows: " +:+ Error err)).
Proof.
  apply (list_workflows_error_texts Sample.mapUnicodeToLower Sample.FormatRFC3339
           "default" (Sample.serve Sample.store)
           (Sample.request "list_workflows" [("status", JString "Paused")]));
    reflexivity.
Defined.

(** X19. The error results of describe_workflow have exactly three texts:
    the fixed sentence for a missing, non-string or empty workflow id; the
    sentence for a failed call, which carries the backend's error message;
    and the fixed sentence for an answer without detail payload. *)
Theorem describe_workflow_error_texts FormatRFC3339 Quote c req r :
  value (describe_workflow_handler FormatRFC3339 Quote c req) = (Some r, None) ->
  mcp.IsError r = true ->
  r = mcp.NewToolResultError "Missing or invalid 'workflow_id' parameter"
  \/ (exists wfID err,
        mcp.Arguments (mcp.Params req) !! "workflow_id" = Some (JString wfID)
        /\ snd (client.DescribeWorkflowExecution c wfID (run_id_of req)) = Some err
        /\ r = mcp.NewToolResultError ("Failed to describe workflow: " +:+ Error err))
  \/ r = mcp.NewToolResultError "No information available for the specified workflow".
Proof.
  destruct (workflow_id_cases req) as [Hbad|(wfID & Hreq & Hne)].
  { rewrite (describe_workflow_invalid_argument _ _ _ req Hbad). intros [= <-] _. now left. }
  rewrite (describe_workflow_unfold _ _ _ req wfID Hreq Hne). unfold value. simpl.
  destruct (snd (client.DescribeWorkflowExecution c wfID (run_id_of req)))
    as [err|] eqn:Herr.
  - intros [= <-] _. right. left. now exists wfID, err.
  - destruct (workflowservice.GetWorkflowExecutionInfo _) as [detail|].
    + unfold render_detail. intros [= <-]. discriminate.
    + intros [= <-] _. now right; right.
Qed.

Lemma describe_workflow_error_texts_witness :
  mcp.NewToolResultError "No information available for the specified workflow"
  = mcp.NewToolResultError "Missing or invalid 'workflow_id' parameter"
  \/ (exists wfID err,
        mcp.Arguments
          (mcp.Params (Sample.request "describe_workflow"
                         [("workflow_id", JString "order-1")]))
        !! "workflow_id" = Some (JString wfID)
        /\ snd (client.DescribeWorkflowExecution Sample.hollow wfID
                  (run_id_of (Sample.request "describe_workflow"
                                [("workflow_id", JString "order-1")]))) = Some err
        /\ mcp.NewToolResultError "No information available for the specified workflow"
           = mcp.NewToolResultError ("Failed to describe workflow: " +:+ Error err))
  \/ mcp.NewToolResultError "No information available for the specified workflow"
     = mcp.NewToolResultError "No information available for the specified workflow".
Proof.
  apply (describe_workflow_error_texts Sample.FormatRFC3339 Sample.Quote Sample.hollow
           (Sample.request "describe_workflow" [("workflow_id", JString "order-1")]));
    reflexivity.
Defined.
